(** * Blogicum: the views of [blog/views.py], embedded and verified

    The views of the blog application are embedded over an explicit
    database state: every model manager ([Post.objects], ...) is a finite
    map from primary keys to rows, a request carries the requesting user,
    the HTTP method, the URL keyword arguments and the submitted form, and
    a view returns either a response or the exception it raised, together
    with the database it leaves behind. *)

From stdpp Require Import base numbers option list strings gmap fin_maps sorting.

Open Scope Z_scope.
Open Scope nat_scope.

(** ** The models *)

(** Primary keys; the [int] URL converter yields natural numbers. *)
Abbreviation pk := nat (only parsing).

(** [django.contrib.auth.models.User], reduced to its unique name. *)
Record User := { username : string }.

(** Modelled from the spec: [models.py] is absent.  A Category has a
    unique slug and a published flag. *)
Record Category := { slug : string; category_is_published : bool }.

(** Modelled from the spec: [models.py] is absent.  A Post has a title, a
    body, a publication timestamp, a published flag and foreign keys to its
    author, to an optional category and to an optional location. *)
Record Post := {
  title : string;
  text : string;
  pub_date : Z;
  author : pk;
  category : option pk;
  location : option pk;
  is_published : bool
}.

(** Modelled from the spec: [models.py] is absent.  A Comment has a body,
    a creation timestamp and foreign keys to its post and to its author. *)
Record Comment := {
  comment_text : string;
  comment_post : pk;
  comment_author : pk;
  created_at : Z
}.

(** The entity store: one table per model, keyed by primary key. *)
Record DB := {
  User_objects : gmap nat User;
  Category_objects : gmap nat Category;
  Post_objects : gmap nat Post;
  Comment_objects : gmap nat Comment
}.

(** ** Requests, responses and exceptions *)

(** [request.user]: the anonymous user or a stored user, known by its key. *)
Inductive RequestUser := AnonymousUser | AuthUser (uid : pk).

Definition is_authenticated (u : RequestUser) : bool :=
  match u with AnonymousUser => false | AuthUser _ => true end.

(** [obj.author == request.user]: model instances are equal when their
    primary keys are; no model instance equals the anonymous user. *)
Definition author_eq (a : pk) (u : RequestUser) : bool :=
  match u with AnonymousUser => false | AuthUser k => bool_decide (a = k) end.

Inductive Method := GET | POST.

(** The exceptions a view can leave unhandled.  [Http404] is answered with
    status 404 and [PermissionDenied] with 403; the others are programming
    errors, answered with 500. *)
Inductive Exn :=
  | Http404
  | PermissionDenied
  | AttributeError
  | KeyError
  | TypeError
  | NoReverseMatch
  | DoesNotExist
  | MultipleObjectsReturned.

(** The named routes the views reverse. *)
Inductive Url :=
  | blog_index
  | blog_post_detail (post_id : pk)
  | blog_profile (name : string)
  | login_url.

(** The [page] query parameter: absent (or empty), an integer, the word
    [last], or any other text. *)
Inductive PageParam := PageAbsent | PageInt (n : Z) | PageLast | PageOther.

Inductive Result (A : Type) :=
  | Ok (a : A)
  | Raise (e : Exn).
Arguments Ok {A} a.
Arguments Raise {A} e.

(** Sequencing: an exception raised by [m] propagates. *)
Definition bind {A B} (m : Result A) (k : A -> Result B) : Result B :=
  match m with Ok a => k a | Raise e => Raise e end.

Notation "'do' x <- m ; k" := (bind m (fun x => k))
  (at level 10, x pattern, m at level 100, k at level 200,
   format "'[v' 'do'  x  <-  m ; '/' k ']'").

(** The HTTP status of an unhandled exception. *)
Definition status_of_exn (e : Exn) : nat :=
  match e with
  | Http404 => 404
  | PermissionDenied => 403
  | _ => 500
  end.

(** Rows as the views see them: a primary key and the fields, and posts
    annotated with [comment_count]. *)
Abbreviation Row A := (nat * A)%type (only parsing).
Abbreviation AnnotatedPost := (nat * Post * nat)%type (only parsing).

(** What a template is rendered with. *)
Inductive Context :=
  | ListContext (page_obj : list AnnotatedPost)
      (ctx_category : option (Row Category)) (ctx_profile : option (Row User))
  | DetailContext (ctx_post : Row Post) (ctx_comments : list (Row Comment))
  | FormContext (ctx_object : nat) (ctx_post_id : option nat).

Inductive Response :=
  | TemplateResponse (template_name : string) (context : Context)
  | HttpResponseRedirect (redirect_to : Url).

(** A submitted form after validation: [None] when [is_valid()] fails.
    Modelled from the spec: [forms.py] is absent.  A post form carries
    every attribute of a Post but its author, a comment form the body. *)
Record PostForm := {
  form_title : string;
  form_text : string;
  form_pub_date : Z;
  form_category : option pk;
  form_location : option pk;
  form_is_published : bool
}.

Record CommentForm := { form_comment_text : string }.

(** ** Framework helpers *)

(** [Model.objects.all()]: the rows of a table, in no particular order. *)
Definition objects_all {A} (objects : gmap nat A) : list (Row A) :=
  map_to_list objects.

(** [QuerySet.get()] on an already filtered queryset. *)
Definition QuerySet_get {A} (queryset : list A) : Result A :=
  match queryset with
  | [] => Raise DoesNotExist
  | [r] => Ok r
  | _ => Raise MultipleObjectsReturned
  end.

(** [get_object_or_404(klass, lookups)]: [DoesNotExist] becomes [Http404],
    everything else propagates. *)
Definition get_object_or_404 {A} (lookups : A -> bool) (klass : list A)
    : Result A :=
  match QuerySet_get (filter (fun r => lookups r = true) klass) with
  | Raise DoesNotExist => Raise Http404
  | r => r
  end.

(** The lookup [id=value]; [None] matches no row. *)
Definition id_is {A} (v : option nat) (r : Row A) : bool :=
  match v with Some k => bool_decide (r.1 = k) | None => false end.

(** [kwargs[key]] *)
Definition getitem {V} (kwargs : gmap string V) (key : string) : Result V :=
  match kwargs !! key with Some v => Ok v | None => Raise KeyError end.

(** [SingleObjectMixin.get_object]: the routes of these views capture no
    slug, so a missing primary key is an [AttributeError]. *)
Definition SingleObjectMixin_get_object {A} (queryset : list (Row A))
    (pk_url_kwarg : string) (kwargs : gmap string nat) : Result (Row A) :=
  match kwargs !! pk_url_kwarg with
  | None => Raise AttributeError
  | Some k => get_object_or_404 (id_is (Some k)) queryset
  end.

(** [reverse('blog:post_detail', kwargs={'post_id': post_id})] *)
Definition reverse_post_detail (post_id : option nat) : Result Url :=
  match post_id with
  | Some k => Ok (blog_post_detail k)
  | None => Raise NoReverseMatch
  end.

(** [order_by(key)] and [order_by('-key')] on a timestamp. *)
Definition asc {A} (key : A -> Z) : relation A :=
  fun x y => (key x <= key y)%Z.
Definition desc {A} (key : A -> Z) : relation A :=
  fun x y => (key y <= key x)%Z.

#[global] Instance asc_dec {A} (key : A -> Z) x y : Decision (asc key x y) :=
  decide (key x <= key y)%Z.
#[global] Instance desc_dec {A} (key : A -> Z) x y : Decision (desc key x y) :=
  decide (key y <= key x)%Z.

Definition order_by {A} (key : A -> Z) (queryset : list A) : list A :=
  merge_sort (asc key) queryset.
Definition order_by_desc {A} (key : A -> Z) (queryset : list A) : list A :=
  merge_sort (desc key) queryset.

(** [Count('comments')]: the comments whose post is the row. *)
Definition Count_comments (db : DB) (post_pk : nat) : nat :=
  length (filter (fun c : Row Comment => comment_post c.2 = post_pk)
            (objects_all (Comment_objects db))).

Definition annotate_comment_count (db : DB) (queryset : list (Row Post))
    : list AnnotatedPost :=
  (fun r => (r, Count_comments db r.1)) <$> queryset.

(** The join [category__is_published=True]: the post has a category, the
    category row exists and is published. *)
Definition category__is_published (db : DB) (p : Post) : bool :=
  match category p with
  | None => false
  | Some cid =>
      match Category_objects db !! cid with
      | Some c => category_is_published c
      | None => false
      end
  end.

(** [Paginator.num_pages], with no orphans and an empty first page allowed. *)
Definition Paginator_num_pages (count per_page : nat) : nat :=
  (Nat.max 1 count + per_page - 1) / per_page.

(** [Paginator.page(number)]; [EmptyPage] is turned into [Http404] by
    [paginate_queryset]. *)
Definition Paginator_page {A} (object_list : list A) (per_page : nat)
    (number : Z) : Result (list A) :=
  if bool_decide (number < 1)%Z then Raise Http404
  else if bool_decide
            (Z.of_nat (Paginator_num_pages (length object_list) per_page) < number)%Z
  then Raise Http404
  else
    let bottom := (Z.to_nat number - 1) * per_page in
    Ok (take per_page (drop bottom object_list)).

(** [MultipleObjectMixin.paginate_queryset] *)
Definition paginate_queryset {A} (queryset : list A) (page_size : nat)
    (page : PageParam) : Result (list A) :=
  do page_number <-
    match page with
    | PageAbsent => Ok 1%Z
    | PageInt n => Ok n
    | PageLast =>
        Ok (Z.of_nat (Paginator_num_pages (length queryset) page_size))
    | PageOther => Raise Http404
    end;
  Paginator_page queryset page_size page_number.

(** [LoginRequiredMixin.dispatch]: an anonymous request is redirected to
    the login page and the view is not run. *)
Definition LoginRequiredMixin_dispatch (user : RequestUser) (db : DB)
    (view : Result Response * DB) : Result Response * DB :=
  if is_authenticated user then view
  else (Ok (HttpResponseRedirect login_url), db).

(** Python's short-circuit [and] and [or] over conditions that may raise. *)
Definition py_and (a b : Result bool) : Result bool :=
  do x <- a; if x then b else Ok false.
Definition py_or (a b : Result bool) : Result bool :=
  do x <- a; if x then Ok true else b.

(** [post.category]: [None] for a null key, the row otherwise. *)
Definition Post_category (db : DB) (p : Post) : Result (option Category) :=
  match category p with
  | None => Ok None
  | Some cid =>
      match Category_objects db !! cid with
      | Some c => Ok (Some c)
      | None => Raise DoesNotExist
      end
  end.

(** [c.is_published] on a value that may be [None]. *)
Definition getattr_is_published (c : option Category) : Result bool :=
  match c with
  | Some c => Ok (category_is_published c)
  | None => Raise AttributeError
  end.

(** ** Writes *)

(** [form.save()] on a post: every form field is stored, the author stays. *)
Definition PostForm_save (form : PostForm) (object : Row Post) (db : DB) : DB :=
  {| User_objects := User_objects db;
     Category_objects := Category_objects db;
     Post_objects :=
       <[ object.1 := {| title := form_title form;
                         text := form_text form;
                         pub_date := form_pub_date form;
                         author := author object.2;
                         category := form_category form;
                         location := form_location form;
                         is_published := form_is_published form |} ]>
         (Post_objects db);
     Comment_objects := Comment_objects db |}.

(** [form.save()] on a comment: the body is stored. *)
Definition CommentForm_save (form : CommentForm) (object : Row Comment)
    (db : DB) : DB :=
  {| User_objects := User_objects db;
     Category_objects := Category_objects db;
     Post_objects := Post_objects db;
     Comment_objects :=
       <[ object.1 := {| comment_text := form_comment_text form;
                         comment_post := comment_post object.2;
                         comment_author := comment_author object.2;
                         created_at := created_at object.2 |} ]>
         (Comment_objects db) |}.

(** Modelled from the spec: [models.py] is absent.  Every Comment belongs
    to exactly one Post, so deleting a post deletes its comments. *)
Definition Post_delete (post_pk : nat) (db : DB) : DB :=
  {| User_objects := User_objects db;
     Category_objects := Category_objects db;
     Post_objects := delete post_pk (Post_objects db);
     Comment_objects :=
       filter (fun c : Row Comment => comment_post c.2 <> post_pk)
         (Comment_objects db) |}.

Definition Comment_delete (comment_pk : nat) (db : DB) : DB :=
  {| User_objects := User_objects db;
     Category_objects := Category_objects db;
     Post_objects := Post_objects db;
     Comment_objects := delete comment_pk (Comment_objects db) |}.

(** ** Generic editing views *)

(** What a view hands back: the response or the exception, and the
    database after the request. *)
Abbreviation Outcome := (Result Response * DB)%type (only parsing).

(** [UpdateView]: [get] renders the form of the object; [post] saves a
    valid form and redirects to the success URL, and renders the form
    again when it is invalid. *)
Definition UpdateView_dispatch {A F} (get_object : Result (Row A))
    (save : F -> Row A -> DB -> DB) (get_success_url : Row A -> Result Url)
    (template_name : string) (post_id : option nat)
    (method : Method) (form : option F) (db : DB) : Outcome :=
  match get_object with
  | Raise e => (Raise e, db)
  | Ok object =>
      match method, form with
      | POST, Some form =>
          let db' := save form object db in
          (do url <- get_success_url object; Ok (HttpResponseRedirect url), db')
      | _, _ =>
          (Ok (TemplateResponse template_name (FormContext object.1 post_id)), db)
      end
  end.

(** [DeleteView]: [get] renders the confirmation page; [post] deletes the
    object and then redirects, the lazy success URL being resolved when
    the redirect is built. *)
Definition DeleteView_dispatch {A} (get_object : Result (Row A))
    (delete : nat -> DB -> DB) (get_success_url : Result Url)
    (template_name : string) (method : Method) (db : DB) : Outcome :=
  match get_object with
  | Raise e => (Raise e, db)
  | Ok object =>
      match method with
      | GET => (Ok (TemplateResponse template_name (FormContext object.1 None)), db)
      | POST =>
          let db' := delete object.1 db in
          (do url <- get_success_url; Ok (HttpResponseRedirect url), db')
      end
  end.

(** ** PostListView *)

Definition paginate_by : nat := 10.

Definition PostListView_get_queryset (db : DB) (now : Z) : list AnnotatedPost :=
  annotate_comment_count db
    (order_by_desc (fun r : Row Post => pub_date r.2)
       (filter (fun r : Row Post =>
                  is_published r.2 = true
                  /\ (pub_date r.2 <= now)%Z
                  /\ category__is_published db r.2 = true)
          (objects_all (Post_objects db)))).

Definition PostListView_get (db : DB) (now : Z) (page : PageParam)
    : Result Response :=
  do page_obj <- paginate_queryset (PostListView_get_queryset db now) paginate_by page;
  Ok (TemplateResponse "blog/index.html" (ListContext page_obj None None)).

(** ** PostUpdateView *)

Definition PostUpdateView_get_object (db : DB) (kwargs : gmap string nat)
    : Result (Row Post) :=
  SingleObjectMixin_get_object (objects_all (Post_objects db)) "pk" kwargs.

Definition PostUpdateView_test_func (db : DB) (user : RequestUser)
    (kwargs : gmap string nat) : Result bool :=
  do object <- PostUpdateView_get_object db kwargs;
  Ok (is_authenticated user && author_eq (author object.2) user).

Definition PostUpdateView_get_success_url (object : Row Post) : Result Url :=
  reverse_post_detail (Some object.1).

Definition PostUpdateView_dispatch (db : DB) (user : RequestUser)
    (method : Method) (kwargs : gmap string nat) (form : option PostForm)
    : Outcome :=
  match PostUpdateView_test_func db user kwargs with
  | Raise e => (Raise e, db)
  | Ok false =>
      (do k <- getitem kwargs "pk";
       do url <- reverse_post_detail (Some k);
       Ok (HttpResponseRedirect url), db)
  | Ok true =>
      UpdateView_dispatch (PostUpdateView_get_object db kwargs) PostForm_save
        PostUpdateView_get_success_url "blog/create.html" None method form db
  end.

(** ** PostDeleteView *)

(** [qs.filter(author=self.request.user)]; the anonymous user is no
    lookup value, and never reaches this point. *)
Definition PostDeleteView_get_queryset (db : DB) (user : RequestUser)
    : Result (list (Row Post)) :=
  match user with
  | AnonymousUser => Raise TypeError
  | AuthUser uid =>
      Ok (filter (fun r : Row Post => author r.2 = uid)
            (objects_all (Post_objects db)))
  end.

Definition PostDeleteView_get_object (db : DB) (user : RequestUser)
    (kwargs : gmap string nat) : Result (Row Post) :=
  do qs <- PostDeleteView_get_queryset db user;
  SingleObjectMixin_get_object qs "post_id" kwargs.

Definition PostDeleteView_dispatch (db : DB) (user : RequestUser)
    (method : Method) (kwargs : gmap string nat) : Outcome :=
  LoginRequiredMixin_dispatch user db
    (DeleteView_dispatch (PostDeleteView_get_object db user kwargs)
       Post_delete (Ok blog_index) "blog/create.html" method db).

(** ** PostDetailView *)

Definition PostDetailView_get_object (db : DB) (now : Z) (user : RequestUser)
    (kwargs : gmap string nat) : Result (Row Post) :=
  let post_id := kwargs !! "post_id" in
  do post <- get_object_or_404 (id_is post_id) (objects_all (Post_objects db));
  do cond <-
    py_or (Ok (author_eq (author post.2) user))
      (py_and (Ok (is_published post.2))
         (py_and (do c <- Post_category db post.2; getattr_is_published c)
            (Ok (bool_decide (pub_date post.2 <= now)%Z))));
  if cond then Ok post else Raise Http404.

Definition PostDetailView_get_context_data (db : DB) (now : Z)
    (user : RequestUser) (kwargs : gmap string nat) : Result Context :=
  do post <- PostDetailView_get_object db now user kwargs;
  let comments :=
    order_by (fun c : Row Comment => created_at c.2)
      (filter (fun c : Row Comment => comment_post c.2 = post.1)
         (objects_all (Comment_objects db))) in
  Ok (DetailContext post comments).

Definition PostDetailView_get (db : DB) (now : Z) (user : RequestUser)
    (kwargs : gmap string nat) : Result Response :=
  do _ <- PostDetailView_get_object db now user kwargs;
  do context <- PostDetailView_get_context_data db now user kwargs;
  Ok (TemplateResponse "blog/detail.html" context).

(** ** ProfileView *)

Definition ProfileView_get_queryset (db : DB) (kwargs : gmap string string)
    : Result (list AnnotatedPost) :=
  do name <- getitem kwargs "username";
  do profile <-
    get_object_or_404 (fun r : Row User => bool_decide (username r.2 = name))
      (objects_all (User_objects db));
  let posts :=
    filter (fun r : Row Post => author r.2 = profile.1)
      (objects_all (Post_objects db)) in
  let posts_annotated := annotate_comment_count db posts in
  Ok (order_by_desc (fun r : AnnotatedPost => pub_date r.1.2) posts_annotated).

Definition ProfileView_get (db : DB) (kwargs : gmap string string)
    (page : PageParam) : Result Response :=
  do queryset <- ProfileView_get_queryset db kwargs;
  do page_obj <- paginate_queryset queryset paginate_by page;
  do name <- getitem kwargs "username";
  do profile <-
    get_object_or_404 (fun r : Row User => bool_decide (username r.2 = name))
      (objects_all (User_objects db));
  Ok (TemplateResponse "blog/profile.html"
        (ListContext page_obj None (Some profile))).

(** ** CategoryPostsView *)

(** Returns [self.category] along with the queryset. *)
Definition CategoryPostsView_get_queryset (db : DB) (now : Z)
    (kwargs : gmap string string) : Result (Row Category * list AnnotatedPost) :=
  do category_slug <- getitem kwargs "category_slug";
  do self_category <-
    get_object_or_404
      (fun r : Row Category =>
         bool_decide (slug r.2 = category_slug) && category_is_published r.2)
      (objects_all (Category_objects db));
  let queryset :=
    order_by_desc (fun r : Row Post => pub_date r.2)
      (filter (fun r : Row Post =>
                 is_published r.2 = true
                 /\ (pub_date r.2 <= now)%Z
                 /\ category r.2 = Some self_category.1)
         (objects_all (Post_objects db))) in
  let queryset := annotate_comment_count db queryset in
  let queryset :=
    filter (fun r : AnnotatedPost => category__is_published db r.1.2 = true)
      queryset in
  Ok (self_category, queryset).

Definition CategoryPostsView_get (db : DB) (now : Z)
    (kwargs : gmap string string) (page : PageParam) : Result Response :=
  do (self_category, queryset) <- CategoryPostsView_get_queryset db now kwargs;
  do page_obj <- paginate_queryset queryset paginate_by page;
  Ok (TemplateResponse "blog/category.html"
        (ListContext page_obj (Some self_category) None)).

(** ** EditCommentView *)

Definition EditCommentView_get_object (db : DB) (kwargs : gmap string nat)
    : Result (Row Comment) :=
  let comment_id := kwargs !! "comment_id" in
  get_object_or_404 (id_is comment_id) (objects_all (Comment_objects db)).

Definition EditCommentView_dispatch (db : DB) (user : RequestUser)
    (method : Method) (kwargs : gmap string nat) (form : option CommentForm)
    : Outcome :=
  match EditCommentView_get_object db kwargs with
  | Raise e => (Raise e, db)
  | Ok object =>
      if negb (author_eq (comment_author object.2) user)
      then (Raise PermissionDenied, db)
      else
        LoginRequiredMixin_dispatch user db
          (UpdateView_dispatch (EditCommentView_get_object db kwargs)
             CommentForm_save (fun _ => Ok blog_index) "blog/comment.html"
             (kwargs !! "post_id") method form db)
  end.

(** ** DeleteCommentView *)

Definition DeleteCommentView_get_object (db : DB) (kwargs : gmap string nat)
    : Result (Row Comment) :=
  SingleObjectMixin_get_object (objects_all (Comment_objects db))
    "comment_id" kwargs.

Definition DeleteCommentView_get_success_url (kwargs : gmap string nat)
    : Result Url :=
  let post_id := kwargs !! "post_id" in
  reverse_post_detail post_id.

Definition DeleteCommentView_dispatch (db : DB) (user : RequestUser)
    (method : Method) (kwargs : gmap string nat) : Outcome :=
  match DeleteCommentView_get_object db kwargs with
  | Raise e => (Raise e, db)
  | Ok object =>
      if negb (author_eq (comment_author object.2) user)
      then (Raise PermissionDenied, db)
      else
        LoginRequiredMixin_dispatch user db
          (DeleteView_dispatch (DeleteCommentView_get_object db kwargs)
             Comment_delete (DeleteCommentView_get_success_url kwargs)
             "blog/comment.html" method db)
  end.

(** ** Views that create rows *)

(** What a creating view answers with: the blank (or rejected) form, a
    redirect to a named route, or a redirect to a literal path. *)
Inductive CreateResponse :=
  | BlankForm (template_name : string)
  | RedirectTo (to : Url)
  | RedirectToPath (path : string).

(** [Model.save()] on a new row.  The key [new_id] is the one the database
    assigns to the row: a key that is not in the table. *)
Definition Post_create (new_id : nat) (p : Post) (db : DB) : DB :=
  {| User_objects := User_objects db;
     Category_objects := Category_objects db;
     Post_objects := <[ new_id := p ]> (Post_objects db);
     Comment_objects := Comment_objects db |}.

Definition Comment_create (new_id : nat) (c : Comment) (db : DB) : DB :=
  {| User_objects := User_objects db;
     Category_objects := Category_objects db;
     Post_objects := Post_objects db;
     Comment_objects := <[ new_id := c ]> (Comment_objects db) |}.

(** *** PostCreateView *)

(** [self.object.author.username], the author being a stored user. *)
Definition PostCreateView_get_success_url (db : DB) (object : Row Post)
    : Result Url :=
  match User_objects db !! author object.2 with
  | Some u => Ok (blog_profile (username u))
  | None => Raise DoesNotExist
  end.

(** [form_valid]: the author is the requesting user, whatever the form
    holds; then the row is saved and the response redirects. *)
Definition PostCreateView_form_valid (db : DB) (uid : nat) (form : PostForm)
    (new_id : nat) : Result CreateResponse * DB :=
  let object :=
    (new_id, {| title := form_title form;
                text := form_text form;
                pub_date := form_pub_date form;
                author := uid;
                category := form_category form;
                location := form_location form;
                is_published := form_is_published form |}) in
  let db' := Post_create object.1 object.2 db in
  (do url <- PostCreateView_get_success_url db' object; Ok (RedirectTo url), db').

(** [LoginRequiredMixin] with [login_url = '/login/'] runs first, so
    [form_valid] is reached by a stored user only. *)
Definition PostCreateView_dispatch (db : DB) (user : RequestUser)
    (method : Method) (form : option PostForm) (new_id : nat)
    : Result CreateResponse * DB :=
  match user with
  | AnonymousUser => (Ok (RedirectToPath "/login/"), db)
  | AuthUser uid =>
      match method, form with
      | POST, Some form => PostCreateView_form_valid db uid form new_id
      | _, _ => (Ok (BlankForm "blog/create.html"), db)
      end
  end.

(** *** AddCommentView *)

Definition AddCommentView_get_success_url (kwargs : gmap string nat)
    : Result Url :=
  let post_id := kwargs !! "post_id" in
  reverse_post_detail post_id.

(** [form_valid]: the post of the URL must exist; the comment is tied to
    it and to the requesting user.  Modelled from the spec: the creation
    timestamp of the new comment is the time of the request. *)
Definition AddCommentView_form_valid (db : DB) (now : Z) (uid : nat)
    (kwargs : gmap string nat) (form : CommentForm) (new_id : nat)
    : Result CreateResponse * DB :=
  let post_id := kwargs !! "post_id" in
  match get_object_or_404 (id_is post_id) (objects_all (Post_objects db)) with
  | Raise e => (Raise e, db)
  | Ok post =>
      let instance := {| comment_text := form_comment_text form;
                         comment_post := post.1;
                         comment_author := uid;
                         created_at := now |} in
      let db' := Comment_create new_id instance db in
      (do url <- AddCommentView_get_success_url kwargs; Ok (RedirectTo url), db')
  end.

(** [LoginRequiredMixin] runs first, with the login page of the settings. *)
Definition AddCommentView_dispatch (db : DB) (now : Z) (user : RequestUser)
    (method : Method) (kwargs : gmap string nat) (form : option CommentForm)
    (new_id : nat) : Result CreateResponse * DB :=
  match user with
  | AnonymousUser => (Ok (RedirectTo login_url), db)
  | AuthUser uid =>
      match method, form with
      | POST, Some form => AddCommentView_form_valid db now uid kwargs form new_id
      | _, _ => (Ok (BlankForm "comments.html"), db)
      end
  end.

(** ** EditProfileView *)

(** Modelled from the spec: [forms.py] is absent.  The profile form
    carries the fields of a user, here its name. *)
Record UserProfileForm := { form_username : string }.

Definition UserProfileForm_save (form : UserProfileForm) (object : Row User)
    (db : DB) : DB :=
  {| User_objects :=
       <[ object.1 := {| username := form_username form |} ]> (User_objects db);
     Category_objects := Category_objects db;
     Post_objects := Post_objects db;
     Comment_objects := Comment_objects db |}.

(** [get_object] returns [self.request.user], whatever the URL says.  The
    request carries the key of a stored user; its row is read here. *)
Definition EditProfileView_get_object (db : DB) (uid : nat)
    : Result (Row User) :=
  match User_objects db !! uid with
  | Some u => Ok (uid, u)
  | None => Raise DoesNotExist
  end.

(** [LoginRequiredMixin] runs first.  The success URL is read off the
    saved object, so it names the profile under the new name. *)
Definition EditProfileView_dispatch (db : DB) (user : RequestUser)
    (method : Method) (form : option UserProfileForm) : Outcome :=
  match user with
  | AnonymousUser => (Ok (HttpResponseRedirect login_url), db)
  | AuthUser uid =>
      match EditProfileView_get_object db uid with
      | Raise e => (Raise e, db)
      | Ok object =>
          match method, form with
          | POST, Some form =>
              let db' := UserProfileForm_save form object db in
              (Ok (HttpResponseRedirect (blog_profile (form_username form))), db')
          | _, _ =>
              (Ok (TemplateResponse "blog/user.html" (FormContext object.1 None)), db)
          end
      end
  end.

(** ** Reading a request *)

(** The post a request names, if any. *)
Definition named_post (db : DB) (kwargs : gmap string nat) (key : string)
    : option (nat * Post) :=
  k ← kwargs !! key; p ← Post_objects db !! k; Some (k, p).

(** The integers the database stores as keys are signed 64-bit ones.  A
    lookup by a larger value is not answered by the database at all, so
    what the views do with an id that is not stored is stated for ids in
    this range. *)
Definition in_key_range (k : nat) : Prop := (Z.of_nat k < 2 ^ 63)%Z.

(** ** Integrity constraints *)

(** Modelled from the spec: [models.py] is absent.  Slugs are unique
    among categories, user names among users. *)
Definition unique_slug (db : DB) : Prop :=
  NoDup ((fun r : Row Category => slug r.2) <$> objects_all (Category_objects db)).

Definition unique_username (db : DB) : Prop :=
  NoDup ((fun r : Row User => username r.2) <$> objects_all (User_objects db)).

(** ** A small database *)

Module Example.
Definition post (a : nat) (pub : bool) (d : Z) (c : option nat) : Post :=
  {| title := "title"; text := "text"; pub_date := d; author := a;
     category := c; location := None; is_published := pub |}.

(** Two users, a published and an unpublished category, and posts of
    every kind: [7] has no category, [10] is unpublished, [11] is dated
    in the future of [now = 10], [12] sits in the unpublished category. *)
Definition db : DB := {|
  User_objects :=
    {[ 1 := {| username := "ann" |}; 2 := {| username := "bob" |} ]};
  Category_objects :=
    {[ 1 := {| slug := "news"; category_is_published := true |};
       2 := {| slug := "drafts"; category_is_published := false |} ]};
  Post_objects :=
    {[ 7 := post 1 true 5 None;
       8 := post 1 true 6 (Some 1);
       9 := post 2 true 7 (Some 1);
       10 := post 2 false 3 (Some 1);
       11 := post 1 true 50 (Some 1);
       12 := post 1 true 4 (Some 2) ]};
  Comment_objects :=
    {[ 1 := {| comment_text := "first"; comment_post := 8;
               comment_author := 2; created_at := 9 |} ]}
|}.

Definition now : Z := 10.
End Example.

(** * Properties *)

(** ** Lookups *)

Section filters.
Context {A : Type}.
Implicit Types l : list A.

Lemma filter_none (P : A -> Prop) `{!forall x, Decision (P x)} l :
  (forall x, x ∈ l -> ~ P x) -> filter P l = [].
Proof.
  intros Hl. destruct (filter P l) as [|y l'] eqn:E; [done|].
  assert (Hy : y ∈ filter P l) by (rewrite E; left).
  apply list_elem_of_filter in Hy as [HP Hin]. by destruct (Hl y).
Qed.

Lemma filter_single (P : A -> Prop) `{!forall x, Decision (P x)} l x :
  NoDup l -> x ∈ l -> P x -> (forall y, y ∈ l -> P y -> y = x) ->
  filter P l = [x].
Proof.
  induction 1 as [|a l Ha Hnd IH]; intros Hx HP Huniq.
  - by apply elem_of_nil in Hx.
  - apply elem_of_cons in Hx as [->|Hx].
    + rewrite filter_cons_True by done. f_equal.
      apply filter_none. intros y Hy HPy.
      apply Ha. rewrite <- (Huniq y); [done|by right|done].
    + rewrite filter_cons_False.
      * apply IH; [done..|]. intros y Hy. apply Huniq. by right.
      * intros HPa. apply Ha. rewrite (Huniq a); [done|left|done].
Qed.

End filters.

Section lookups.
Context {A : Type}.
Implicit Types m : gmap nat A.

(** A lookup none of the rows passes is answered with 404. *)
Lemma get_object_or_404_none (f : nat * A -> bool) m :
  (forall k v, m !! k = Some v -> f (k, v) = false) ->
  get_object_or_404 f (objects_all m) = Raise Http404.
Proof.
  intros Hf. unfold get_object_or_404. rewrite filter_none; [done|].
  intros [k v] Hin%elem_of_map_to_list. rewrite (Hf k v Hin). done.
Qed.

(** A lookup exactly one row passes returns that row. *)
Lemma get_object_or_404_unique (f : nat * A -> bool) m k v :
  m !! k = Some v -> f (k, v) = true ->
  (forall j w, m !! j = Some w -> f (j, w) = true -> j = k) ->
  get_object_or_404 f (objects_all m) = Ok (k, v).
Proof.
  intros Hk Hf Huniq. unfold get_object_or_404.
  rewrite (filter_single _ _ (k, v)); [done| | |done|].
  - apply NoDup_map_to_list.
  - by apply elem_of_map_to_list.
  - intros [j w] Hin%elem_of_map_to_list Hfj.
    assert (j = k) as -> by eauto. congruence.
Qed.

(** A lookup by primary key, on a queryset already filtered by [Q]. *)
Lemma get_object_or_404_pk (Q : nat * A -> Prop)
    `{!forall r, Decision (Q r)} m k :
  get_object_or_404 (id_is (Some k)) (filter Q (objects_all m)) =
    match m !! k with
    | Some v => if decide (Q (k, v)) then Ok (k, v) else Raise Http404
    | None => Raise Http404
    end.
Proof.
  unfold get_object_or_404.
  assert (Hno : forall P : nat * A -> Prop, forall `{!forall r, Decision (P r)},
    (forall v, m !! k = Some v -> ~ P (k, v)) ->
    filter (fun r => id_is (Some k) r = true) (filter P (objects_all m)) = []).
  { intros P ? HP. apply filter_none.
    intros [j w] [HPj Hin%elem_of_map_to_list]%list_elem_of_filter Hid.
    cbn in Hid. apply bool_decide_eq_true in Hid. cbn in Hid. subst j.
    by apply (HP w). }
  destruct (m !! k) as [v|] eqn:Hk.
  - destruct (decide (Q (k, v))) as [HQ|HQ].
    + rewrite (filter_single _ _ (k, v)); [done| | | |].
      * apply NoDup_filter, NoDup_map_to_list.
      * apply list_elem_of_filter. split; [done|]. by apply elem_of_map_to_list.
      * cbn. by apply bool_decide_eq_true.
      * intros [j w] [_ Hin%elem_of_map_to_list]%list_elem_of_filter Hid.
        cbn in Hid. apply bool_decide_eq_true in Hid. cbn in Hid. subst j.
        congruence.
    + rewrite Hno; [done|]. intros w Hw. congruence.
  - rewrite Hno; [done|]. intros w Hw. congruence.
Qed.

Lemma get_object_or_404_pk_all m k :
  get_object_or_404 (id_is (Some k)) (objects_all m) =
    match m !! k with Some v => Ok (k, v) | None => Raise Http404 end.
Proof.
  unfold get_object_or_404. destruct (m !! k) as [v|] eqn:Hk.
  - rewrite (filter_single _ _ (k, v)); [done| | | |].
    + apply NoDup_map_to_list.
    + by apply elem_of_map_to_list.
    + cbn. by apply bool_decide_eq_true.
    + intros [j w] Hin%elem_of_map_to_list Hid.
      cbn in Hid. apply bool_decide_eq_true in Hid. cbn in Hid. subst j.
      congruence.
  - rewrite filter_none; [done|].
    intros [j w] Hin%elem_of_map_to_list Hid.
    cbn in Hid. apply bool_decide_eq_true in Hid. cbn in Hid. subst j.
    congruence.
Qed.
End lookups.

(** ** Ordering *)

Section ordering.
Context {A : Type} (key : A -> Z).

#[global] Instance asc_transitive : Transitive (asc key).
Proof. unfold asc. intros x y z. lia. Qed.
#[global] Instance asc_total : Total (asc key).
Proof. unfold asc. intros x y. lia. Qed.
#[global] Instance desc_transitive : Transitive (desc key).
Proof. unfold desc. intros x y z. lia. Qed.
#[global] Instance desc_total : Total (desc key).
Proof. unfold desc. intros x y. lia. Qed.

Lemma order_by_desc_Permutation l : order_by_desc key l ≡ₚ l.
Proof. apply merge_sort_Permutation. Qed.

Lemma order_by_desc_sorted l : StronglySorted (desc key) (order_by_desc key l).
Proof. apply StronglySorted_merge_sort; apply _. Qed.

Lemma order_by_Permutation l : order_by key l ≡ₚ l.
Proof. apply merge_sort_Permutation. Qed.

Lemma order_by_sorted l : StronglySorted (asc key) (order_by key l).
Proof. apply StronglySorted_merge_sort; apply _. Qed.

Lemma elem_of_order_by_desc l x : x ∈ order_by_desc key l <-> x ∈ l.
Proof. by rewrite order_by_desc_Permutation. Qed.

Lemma NoDup_order_by_desc l : NoDup l -> NoDup (order_by_desc key l).
Proof. by rewrite order_by_desc_Permutation. Qed.
End ordering.

(** ** Pagination *)

Section pagination.
Context {A : Type}.
Implicit Types qs pg : list A.

Lemma Paginator_page_slice qs per_page number pg :
  Paginator_page qs per_page number = Ok pg ->
  pg = take per_page (drop ((Z.to_nat number - 1) * per_page) qs).
Proof.
  unfold Paginator_page. repeat case_bool_decide; congruence.
Qed.

(** Every page holds at most ten rows, a slice of the queryset. *)
Lemma paginate_queryset_slice qs page pg :
  paginate_queryset qs paginate_by page = Ok pg ->
  length pg <= 10 /\ exists n, pg = take 10 (drop (n * 10) qs).
Proof.
  unfold paginate_queryset. intros H.
  assert (Hpg : exists n, pg = take 10 (drop (n * 10) qs)).
  { destruct page; cbn [bind] in H; try done;
      apply Paginator_page_slice in H; eauto. }
  split; [|done]. destruct Hpg as [n ->]. rewrite length_take. lia.
Qed.

(** The row of rank [i] is served on page [i / 10 + 1], at position
    [i mod 10]. *)
Lemma paginate_queryset_rank qs i r :
  qs !! i = Some r ->
  exists pg,
    paginate_queryset qs paginate_by (PageInt (Z.of_nat (i / 10 + 1))) = Ok pg
    /\ pg !! (i mod 10) = Some r.
Proof.
  intros Hi. pose proof (lookup_lt_Some _ _ _ Hi) as Hlt.
  unfold paginate_queryset, Paginator_page, Paginator_num_pages, paginate_by.
  cbn [bind].
  pose proof (Nat.div_mod_eq i 10) as Hdm.
  pose proof (Nat.mod_upper_bound i 10 ltac:(lia)) as Hmod.
  assert (Hpages : i / 10 + 1 <= (Nat.max 1 (length qs) + 10 - 1) / 10).
  { replace (i / 10 + 1) with ((i + 1 * 10) / 10)
      by (rewrite Nat.div_add by lia; lia).
    apply Nat.Div0.div_le_mono. lia. }
  rewrite bool_decide_eq_false_2 by lia.
  rewrite bool_decide_eq_false_2 by lia.
  eexists; split; [done|].
  rewrite lookup_take_lt by lia. rewrite lookup_drop.
  rewrite <- Hi. f_equal. lia.
Qed.

(** Without a [page] parameter the first ten rows are served. *)
Lemma paginate_queryset_default qs :
  paginate_queryset qs paginate_by PageAbsent = Ok (take 10 qs).
Proof.
  unfold paginate_queryset, Paginator_page, Paginator_num_pages, paginate_by.
  cbn [bind].
  assert (1 <= (Nat.max 1 (length qs) + 10 - 1) / 10).
  { replace 1 with ((0 + 1 * 10) / 10) at 1 by done.
    apply Nat.Div0.div_le_mono. lia. }
  rewrite bool_decide_eq_false_2 by lia.
  rewrite bool_decide_eq_false_2 by lia.
  done.
Qed.
End pagination.

(** ** Annotations and joins *)

Lemma map_to_list_filter_Permutation {A} (P : nat * A -> Prop)
    `{!forall r, Decision (P r)} (m : gmap nat A) :
  map_to_list (filter P m) ≡ₚ filter P (map_to_list m).
Proof.
  apply NoDup_Permutation.
  - apply NoDup_map_to_list.
  - apply NoDup_filter, NoDup_map_to_list.
  - intros [k v]. rewrite elem_of_map_to_list, map_lookup_filter_Some.
    rewrite list_elem_of_filter, elem_of_map_to_list. tauto.
Qed.

(** The annotation counts the comment rows related to the post. *)
Lemma Count_comments_size (db : DB) (k : nat) :
  Count_comments db k =
    size (filter (fun c : nat * Comment => comment_post c.2 = k) (Comment_objects db)).
Proof.
  unfold Count_comments, objects_all.
  rewrite <- length_map_to_list.
  by rewrite map_to_list_filter_Permutation.
Qed.

Lemma annotate_comment_count_fst (db : DB) (qs : list (nat * Post)) :
  (annotate_comment_count db qs).*1 = qs.
Proof.
  unfold annotate_comment_count. rewrite <- list_fmap_compose.
  rewrite <- (list_fmap_id qs) at 2. by apply list_fmap_ext.
Qed.

Lemma elem_of_annotate_comment_count (db : DB) (qs : list (nat * Post)) r :
  r ∈ annotate_comment_count db qs <->
  r.1 ∈ qs /\ r.2 = Count_comments db r.1.1.
Proof.
  unfold annotate_comment_count. rewrite list_elem_of_fmap. split.
  - intros (x & -> & Hx). done.
  - intros [Hin Hc]. exists r.1. split; [|done].
    destruct r as [x n]. cbn in *. by subst n.
Qed.

Lemma category__is_published_true (db : DB) (p : Post) :
  category__is_published db p = true <->
  exists cid c, category p = Some cid
    /\ Category_objects db !! cid = Some c
    /\ category_is_published c = true.
Proof.
  unfold category__is_published. split.
  - destruct (category p) as [cid|]; [|done].
    destruct (Category_objects db !! cid) as [c|] eqn:Hc; [|done]. eauto.
  - intros (cid & c & -> & -> & H). done.
Qed.

(** The key of an annotated post, and sortedness across the annotation. *)
Lemma annotate_comment_count_sorted (db : DB) (qs : list (nat * Post)) :
  StronglySorted (desc (fun r : nat * Post => pub_date r.2)) qs ->
  StronglySorted (desc (fun r : nat * Post * nat => pub_date r.1.2))
    (annotate_comment_count db qs).
Proof.
  intros H. unfold annotate_comment_count.
  eapply StronglySorted_fmap; [|done]. intros x y Hxy. exact Hxy.
Qed.

(** ** The global feed *)

(** C6. The global feed holds exactly the posts that are published, whose
    publication date has come and whose category exists and is published,
    each once, by publication date descending; every entry is annotated
    with the number of comment rows related to it; every page holds at
    most ten consecutive entries of the feed, and the entry of rank [i] is
    served on page [i / 10 + 1]. *)
Theorem PostListView_global_feed (db : DB) (now : Z) :
  let feed := PostListView_get_queryset db now in
  (forall k p, (k, p) ∈ feed.*1 <->
     Post_objects db !! k = Some p
     /\ is_published p = true
     /\ (pub_date p <= now)%Z
     /\ exists cid c, category p = Some cid
          /\ Category_objects db !! cid = Some c
          /\ category_is_published c = true)
  /\ NoDup feed.*1.*1
  /\ StronglySorted (desc (fun r : nat * Post * nat => pub_date r.1.2)) feed
  /\ (forall r, r ∈ feed ->
        r.2 = size (filter (fun c : nat * Comment => comment_post c.2 = r.1.1)
                      (Comment_objects db)))
  /\ (forall page response, PostListView_get db now page = Ok response ->
        exists page_obj n,
          response = TemplateResponse "blog/index.html" (ListContext page_obj None None)
          /\ length page_obj <= 10
          /\ page_obj = take 10 (drop (n * 10) feed))
  /\ (forall i r, feed !! i = Some r ->
        exists page_obj,
          PostListView_get db now (PageInt (Z.of_nat (i / 10 + 1))) =
            Ok (TemplateResponse "blog/index.html" (ListContext page_obj None None))
          /\ page_obj !! (i mod 10) = Some r).
Proof.
  intros feed. subst feed. unfold PostListView_get_queryset.
  split_and!.
  - intros k p. rewrite annotate_comment_count_fst, elem_of_order_by_desc.
    rewrite list_elem_of_filter. unfold objects_all.
    rewrite elem_of_map_to_list, category__is_published_true. cbn. tauto.
  - rewrite annotate_comment_count_fst.
    rewrite order_by_desc_Permutation.
    eapply sublist_NoDup; [apply (NoDup_fst_map_to_list (Post_objects db))|].
    apply fmap_sublist, sublist_filter.
  - apply annotate_comment_count_sorted, order_by_desc_sorted.
  - intros r [_ ->]%elem_of_annotate_comment_count.
    apply Count_comments_size.
  - intros page response. unfold PostListView_get.
    destruct (paginate_queryset _ _ _) as [pg|e] eqn:Hpg; [|done].
    cbn. intros [= <-]. apply paginate_queryset_slice in Hpg as [Hlen [n Hn]].
    eauto.
  - intros i r Hi. unfold PostListView_get, PostListView_get_queryset.
    apply paginate_queryset_rank in Hi as (pg & -> & Hr). eauto.
Qed.

(** ** Post detail *)

(** The author of a post is always served it. *)
Lemma PostDetailView_get_object_author (db : DB) (now : Z)
    (kwargs : gmap string nat) (k : nat) (p : Post) :
  kwargs !! "post_id" = Some k ->
  Post_objects db !! k = Some p ->
  PostDetailView_get_object db now (AuthUser (author p)) kwargs = Ok (k, p).
Proof.
  intros Hk Hp. unfold PostDetailView_get_object.
  rewrite Hk, get_object_or_404_pk_all, Hp. cbn.
  by rewrite bool_decide_eq_true_2.
Qed.

(** A post whose category exists is served to anyone but its author when
    it is published, in a published category and not dated in the future,
    and answered with 404 otherwise. *)
Lemma PostDetailView_get_object_categorized (db : DB) (now : Z)
    (user : RequestUser) (kwargs : gmap string nat) (k cid : nat)
    (p : Post) (c : Category) :
  kwargs !! "post_id" = Some k ->
  Post_objects db !! k = Some p ->
  category p = Some cid ->
  Category_objects db !! cid = Some c ->
  user <> AuthUser (author p) ->
  PostDetailView_get_object db now user kwargs =
    if is_published p && category_is_published c
       && bool_decide (pub_date p <= now)%Z
    then Ok (k, p) else Raise Http404.
Proof.
  intros Hk Hp Hcat Hc Hu. unfold PostDetailView_get_object.
  rewrite Hk, get_object_or_404_pk_all, Hp. cbn.
  assert (author_eq (author p) user = false) as ->.
  { destruct user as [|uid]; [done|]. cbn.
    apply bool_decide_eq_false_2. congruence. }
  unfold Post_category. rewrite Hcat, Hc. cbn.
  by destruct (is_published p), (category_is_published c).
Qed.

(** A post without a category is never served to anyone but its author:
    the request is answered with 404 when the post is unpublished, and
    fails on the missing category when it is published. *)
Lemma PostDetailView_get_object_uncategorized (db : DB) (now : Z)
    (user : RequestUser) (kwargs : gmap string nat) (k : nat) (p : Post) :
  kwargs !! "post_id" = Some k ->
  Post_objects db !! k = Some p ->
  category p = None ->
  user <> AuthUser (author p) ->
  PostDetailView_get_object db now user kwargs =
    if is_published p then Raise AttributeError else Raise Http404.
Proof.
  intros Hk Hp Hcat Hu. unfold PostDetailView_get_object.
  rewrite Hk, get_object_or_404_pk_all, Hp. cbn.
  assert (author_eq (author p) user = false) as ->.
  { destruct user as [|uid]; [done|]. cbn.
    apply bool_decide_eq_false_2. congruence. }
  unfold Post_category. rewrite Hcat. cbn.
  by destruct (is_published p).
Qed.

(** C1. Post [7] of the example is published, dated in the past and has
    no category.  Requested by [bob], who is not its author, the detail
    view neither serves it nor answers 404: reading the published flag of
    the missing category raises [AttributeError], a server error. *)
Theorem PostDetailView_get_uncategorized_non_author :
  Post_objects Example.db !! 7 = Some (Example.post 1 true 5 None)
  /\ PostDetailView_get Example.db Example.now (AuthUser 2) {[ "post_id" := 7 ]}
     = Raise AttributeError
  /\ status_of_exn AttributeError = 500.
Proof. split_and!; by vm_compute. Qed.

(** C5. The same post requested anonymously: [get_object] raises
    [AttributeError] where the policy asks for [Http404]. *)
Theorem PostDetailView_get_object_uncategorized_anonymous :
  Post_objects Example.db !! 7 = Some (Example.post 1 true 5 None)
  /\ PostDetailView_get_object Example.db Example.now AnonymousUser
       {[ "post_id" := 7 ]}
     = Raise AttributeError
  /\ Raise AttributeError <> @Raise (nat * Post) Http404.
Proof. split_and!; by vm_compute. Qed.

(** ** Editing a post *)

Lemma author_eq_false (a : nat) (user : RequestUser) :
  user <> AuthUser a -> author_eq a user = false.
Proof.
  destruct user as [|uid]; [done|]. intros Hne. cbn.
  apply bool_decide_eq_false_2. congruence.
Qed.

Lemma author_eq_true (a : nat) : author_eq a (AuthUser a) = true.
Proof. cbn. by apply bool_decide_eq_true_2. Qed.

(** C2. A request to edit an existing post by anyone but its
    authenticated author, the anonymous user included, raises nothing and
    changes nothing: it is redirected to the detail view of the post. *)
Theorem PostUpdateView_soft_denial (db : DB) (user : RequestUser)
    (method : Method) (kwargs : gmap string nat) (form : option PostForm)
    (k : nat) (p : Post) :
  kwargs !! "pk" = Some k ->
  Post_objects db !! k = Some p ->
  user <> AuthUser (author p) ->
  PostUpdateView_dispatch db user method kwargs form =
    (Ok (HttpResponseRedirect (blog_post_detail k)), db).
Proof.
  intros Hk Hp Hu.
  unfold PostUpdateView_dispatch, PostUpdateView_test_func,
    PostUpdateView_get_object, SingleObjectMixin_get_object, getitem.
  rewrite Hk, get_object_or_404_pk_all, Hp. cbn.
  rewrite (author_eq_false _ _ Hu). by rewrite andb_false_r.
Qed.

Lemma PostUpdateView_soft_denial_witness :
  let kwargs : gmap string nat := {[ "pk" := 8 ]} in
  let form := {| form_title := "new"; form_text := "new"; form_pub_date := 0;
                 form_category := None; form_location := None;
                 form_is_published := true |} in
  PostUpdateView_dispatch Example.db AnonymousUser POST kwargs (Some form) =
    (Ok (HttpResponseRedirect (blog_post_detail 8)), Example.db)
  /\ PostUpdateView_dispatch Example.db (AuthUser 2) POST kwargs (Some form) =
    (Ok (HttpResponseRedirect (blog_post_detail 8)), Example.db).
Proof.
  intros kwargs form. split.
  - apply (PostUpdateView_soft_denial Example.db AnonymousUser POST kwargs
             (Some form) 8 (Example.post 1 true 6 (Some 1)));
      [by vm_compute | by vm_compute | discriminate].
  - apply (PostUpdateView_soft_denial Example.db (AuthUser 2) POST kwargs
             (Some form) 8 (Example.post 1 true 6 (Some 1)));
      [by vm_compute | by vm_compute | discriminate].
Defined.

(** ** Editing and deleting a comment *)

(** C3. A request to edit or to delete a comment by an authenticated user
    who is not its author raises [PermissionDenied], answered with status
    403, and leaves the database as it was. *)
Theorem comment_mutation_by_non_owner (db : DB) (uid : nat) (method : Method)
    (kwargs : gmap string nat) (form : option CommentForm)
    (k : nat) (c : Comment) :
  kwargs !! "comment_id" = Some k ->
  Comment_objects db !! k = Some c ->
  uid <> comment_author c ->
  EditCommentView_dispatch db (AuthUser uid) method kwargs form =
    (Raise PermissionDenied, db)
  /\ DeleteCommentView_dispatch db (AuthUser uid) method kwargs =
    (Raise PermissionDenied, db)
  /\ status_of_exn PermissionDenied = 403.
Proof.
  intros Hk Hc Hu.
  assert (Hne : author_eq (comment_author c) (AuthUser uid) = false)
    by (apply author_eq_false; congruence).
  split_and!; [| |done].
  - unfold EditCommentView_dispatch, EditCommentView_get_object.
    rewrite Hk, get_object_or_404_pk_all, Hc. cbn [snd]. by rewrite Hne.
  - unfold DeleteCommentView_dispatch, DeleteCommentView_get_object,
      SingleObjectMixin_get_object.
    rewrite Hk, get_object_or_404_pk_all, Hc. cbn [snd]. by rewrite Hne.
Qed.

Lemma comment_mutation_by_non_owner_witness :
  let kwargs : gmap string nat := {[ "post_id" := 8; "comment_id" := 1 ]} in
  let form := {| form_comment_text := "edited" |} in
  EditCommentView_dispatch Example.db (AuthUser 1) POST kwargs (Some form) =
    (Raise PermissionDenied, Example.db)
  /\ DeleteCommentView_dispatch Example.db (AuthUser 1) POST kwargs =
    (Raise PermissionDenied, Example.db)
  /\ status_of_exn PermissionDenied = 403.
Proof.
  intros kwargs form.
  apply (comment_mutation_by_non_owner Example.db 1 POST kwargs (Some form) 1
           {| comment_text := "first"; comment_post := 8;
              comment_author := 2; created_at := 9 |});
    [by vm_compute | by vm_compute | discriminate].
Defined.

(** ** Deleting a post *)

(** What deleting a post does to the table of posts. *)
Lemma Post_delete_lookup (db : DB) (k j : nat) :
  Post_objects (Post_delete k db) !! j =
    if decide (k = j) then None else Post_objects db !! j.
Proof. cbn. apply lookup_delete. Qed.

(** C4, as stated, fails for the anonymous user: the request to delete
    post [8] of the example, which [ann] wrote, is redirected to the login
    page instead of being answered with 404. *)
Lemma PostDeleteView_anonymous_not_404 :
  let kwargs : gmap string nat := {[ "post_id" := 8 ]} in
  Post_objects Example.db !! 8 = Some (Example.post 1 true 6 (Some 1))
  /\ AnonymousUser <> AuthUser (author (Example.post 1 true 6 (Some 1)))
  /\ PostDeleteView_dispatch Example.db AnonymousUser POST kwargs =
       (Ok (HttpResponseRedirect login_url), Example.db)
  /\ (PostDeleteView_dispatch Example.db AnonymousUser POST kwargs).1 <>
       Raise Http404.
Proof. split_and!; by vm_compute. Qed.

(** C4, amended.  The posts a user may delete are those the user wrote:
    for an existing post, the request of an authenticated user who is not
    its author is answered with 404 and changes nothing; the request of
    the anonymous user is redirected to the login page and changes
    nothing; the [POST] request of its author deletes the post, keeps
    every other post, and redirects to the global feed. *)
Theorem PostDeleteView_scoping (db : DB) (user : RequestUser)
    (method : Method) (kwargs : gmap string nat) (k : nat) (p : Post) :
  kwargs !! "post_id" = Some k ->
  Post_objects db !! k = Some p ->
  (forall uid, user = AuthUser uid -> uid <> author p ->
     PostDeleteView_dispatch db user method kwargs = (Raise Http404, db))
  /\ (user = AnonymousUser ->
     PostDeleteView_dispatch db user method kwargs =
       (Ok (HttpResponseRedirect login_url), db))
  /\ (user = AuthUser (author p) ->
     exists db',
       PostDeleteView_dispatch db user POST kwargs =
         (Ok (HttpResponseRedirect blog_index), db')
       /\ Post_objects db' !! k = None
       /\ forall j, j <> k -> Post_objects db' !! j = Post_objects db !! j).
Proof.
  intros Hk Hp.
  unfold PostDeleteView_dispatch, LoginRequiredMixin_dispatch,
    DeleteView_dispatch, PostDeleteView_get_object,
    PostDeleteView_get_queryset, SingleObjectMixin_get_object.
  split_and!.
  - intros uid -> Hne. cbn [is_authenticated bind].
    rewrite Hk, get_object_or_404_pk, Hp. cbn [snd].
    by rewrite decide_False by congruence.
  - by intros ->.
  - intros ->. cbn [is_authenticated bind].
    rewrite Hk, get_object_or_404_pk, Hp. cbn [snd].
    rewrite decide_True by done. cbn [fst bind].
    eexists. split; [done|]. split.
    + rewrite Post_delete_lookup. by rewrite decide_True.
    + intros j Hj. rewrite Post_delete_lookup. by rewrite decide_False.
Qed.

Lemma PostDeleteView_scoping_witness :
  let kwargs : gmap string nat := {[ "post_id" := 8 ]} in
  PostDeleteView_dispatch Example.db (AuthUser 2) POST kwargs =
    (Raise Http404, Example.db)
  /\ exists db',
       PostDeleteView_dispatch Example.db (AuthUser 1) POST kwargs =
         (Ok (HttpResponseRedirect blog_index), db')
       /\ Post_objects db' !! 8 = None
       /\ forall j, j <> 8 -> Post_objects db' !! j = Post_objects Example.db !! j.
Proof.
  intros kwargs.
  assert (Hk : kwargs !! "post_id" = Some 8) by (by vm_compute).
  assert (Hp : Post_objects Example.db !! 8 = Some (Example.post 1 true 6 (Some 1)))
    by (by vm_compute).
  split.
  - apply (proj1 (PostDeleteView_scoping Example.db (AuthUser 2) POST kwargs
                    8 _ Hk Hp) 2 eq_refl).
    discriminate.
  - apply (proj2 (proj2 (PostDeleteView_scoping Example.db (AuthUser 1) POST
                           kwargs 8 _ Hk Hp))).
    reflexivity.
Defined.

(** ** Unique fields *)

Lemma NoDup_fmap_eq {A B} (f : A -> B) (l : list A) (x y : A) :
  NoDup (f <$> l) -> x ∈ l -> y ∈ l -> f x = f y -> x = y.
Proof.
  induction l as [|a l IH]; csimpl; intros Hnd Hx Hy Hf.
  - by apply elem_of_nil in Hx.
  - apply NoDup_cons in Hnd as [Ha Hnd].
    apply elem_of_cons in Hx as [->|Hx]; apply elem_of_cons in Hy as [->|Hy].
    + done.
    + destruct Ha. rewrite Hf. by apply list_elem_of_fmap_2.
    + destruct Ha. rewrite <- Hf. by apply list_elem_of_fmap_2.
    + by apply IH.
Qed.

Lemma filter_all {A} (P : A -> Prop) `{!forall x, Decision (P x)} (l : list A) :
  (forall x, x ∈ l -> P x) -> filter P l = l.
Proof.
  induction l as [|a l IH]; intros Hl; [done|].
  rewrite filter_cons_True by (apply Hl; left).
  f_equal. apply IH. intros x Hx. apply Hl. by right.
Qed.

(** The published category of a slug, when slugs are unique. *)
Lemma get_category_by_slug (db : DB) (s : string) (k : nat) (c : Category) :
  unique_slug db ->
  Category_objects db !! k = Some c ->
  slug c = s ->
  category_is_published c = true ->
  get_object_or_404
    (fun r : nat * Category =>
       bool_decide (slug r.2 = s) && category_is_published r.2)
    (objects_all (Category_objects db)) = Ok (k, c).
Proof.
  intros Huniq Hk Hs Hpub. apply get_object_or_404_unique; [done| |].
  - cbn. rewrite Hpub. by rewrite bool_decide_eq_true_2.
  - intros j w Hj [Hw _]%andb_prop. apply bool_decide_eq_true in Hw. cbn in Hw.
    assert (Heq : (j, w) = (k, c)); [|congruence].
    apply (NoDup_fmap_eq (fun r : nat * Category => slug r.2)
             (objects_all (Category_objects db))); [done| | |cbn; congruence];
      by apply elem_of_map_to_list.
Qed.

(** The user of a name, when names are unique. *)
Lemma get_user_by_username (db : DB) (name : string) (k : nat) (u : User) :
  unique_username db ->
  User_objects db !! k = Some u ->
  username u = name ->
  get_object_or_404
    (fun r : nat * User => bool_decide (username r.2 = name))
    (objects_all (User_objects db)) = Ok (k, u).
Proof.
  intros Huniq Hk Hn. apply get_object_or_404_unique; [done| |].
  - cbn. by rewrite bool_decide_eq_true_2.
  - intros j w Hj Hw. apply bool_decide_eq_true in Hw. cbn in Hw.
    assert (Heq : (j, w) = (k, u)); [|congruence].
    apply (NoDup_fmap_eq (fun r : nat * User => username r.2)
             (objects_all (User_objects db))); [done| | |cbn; congruence];
      by apply elem_of_map_to_list.
Qed.

(** ** The category feed *)

(** The queryset of a published category, in closed form: the last filter
    of the view keeps every row. *)
Lemma CategoryPostsView_get_queryset_published (db : DB) (now : Z)
    (kwargs : gmap string string) (s : string) (k : nat) (c : Category) :
  kwargs !! "category_slug" = Some s ->
  unique_slug db ->
  Category_objects db !! k = Some c ->
  slug c = s ->
  category_is_published c = true ->
  CategoryPostsView_get_queryset db now kwargs =
    Ok ((k, c),
        annotate_comment_count db
          (order_by_desc (fun r : nat * Post => pub_date r.2)
             (filter (fun r : nat * Post =>
                        is_published r.2 = true
                        /\ (pub_date r.2 <= now)%Z
                        /\ category r.2 = Some k)
                (objects_all (Post_objects db))))).
Proof.
  intros Hkw Huniq Hk Hs Hpub.
  unfold CategoryPostsView_get_queryset, getitem. rewrite Hkw. cbn [bind].
  rewrite (get_category_by_slug db s k c) by done. cbn [bind fst].
  do 2 f_equal. apply filter_all.
  intros r [Hr _]%elem_of_annotate_comment_count.
  apply elem_of_order_by_desc, list_elem_of_filter in Hr as [(_ & _ & Hcat) _].
  apply category__is_published_true. eauto.
Qed.

(** C7. When no category has the slug of the URL, or the category that
    has it is unpublished, the listing is answered with 404.  Otherwise
    the listing holds exactly the posts of that category that are
    published and whose publication date has come, each once, by
    publication date descending; every page holds at most ten consecutive
    entries, the entry of rank [i] is served on page [i / 10 + 1], and
    the category is in the context. *)
Theorem CategoryPostsView_category_feed (db : DB) (now : Z)
    (kwargs : gmap string string) (s : string) :
  kwargs !! "category_slug" = Some s ->
  unique_slug db ->
  ((forall k c, Category_objects db !! k = Some c -> slug c = s ->
      category_is_published c = false) ->
   forall page, CategoryPostsView_get db now kwargs page = Raise Http404)
  /\ (forall k c, Category_objects db !! k = Some c -> slug c = s ->
      category_is_published c = true ->
      exists feed,
        CategoryPostsView_get_queryset db now kwargs = Ok ((k, c), feed)
        /\ (forall j p, (j, p) ∈ feed.*1 <->
              Post_objects db !! j = Some p
              /\ category p = Some k
              /\ is_published p = true
              /\ (pub_date p <= now)%Z)
        /\ NoDup feed.*1.*1
        /\ StronglySorted (desc (fun r : nat * Post * nat => pub_date r.1.2)) feed
        /\ (forall page response,
              CategoryPostsView_get db now kwargs page = Ok response ->
              exists page_obj n,
                response = TemplateResponse "blog/category.html"
                             (ListContext page_obj (Some (k, c)) None)
                /\ length page_obj <= 10
                /\ page_obj = take 10 (drop (n * 10) feed))
        /\ (forall i r, feed !! i = Some r ->
              exists page_obj,
                CategoryPostsView_get db now kwargs
                  (PageInt (Z.of_nat (i / 10 + 1))) =
                  Ok (TemplateResponse "blog/category.html"
                        (ListContext page_obj (Some (k, c)) None))
                /\ page_obj !! (i mod 10) = Some r)).
Proof.
  intros Hkw Huniq. split.
  - intros Hnone page.
    unfold CategoryPostsView_get, CategoryPostsView_get_queryset, getitem.
    rewrite Hkw. cbn [bind].
    rewrite get_object_or_404_none; [done|].
    intros k c Hk. cbn. case_bool_decide as Hs; [|done].
    by rewrite (Hnone k c Hk Hs).
  - intros k c Hk Hs Hpub.
    pose proof (CategoryPostsView_get_queryset_published
                  db now kwargs s k c Hkw Huniq Hk Hs Hpub) as Hqs.
    eexists. split; [exact Hqs|]. split_and!.
    + intros j p. rewrite annotate_comment_count_fst, elem_of_order_by_desc.
      rewrite list_elem_of_filter. unfold objects_all.
      rewrite elem_of_map_to_list. cbn. tauto.
    + rewrite annotate_comment_count_fst, order_by_desc_Permutation.
      eapply sublist_NoDup; [apply (NoDup_fst_map_to_list (Post_objects db))|].
      apply fmap_sublist, sublist_filter.
    + apply annotate_comment_count_sorted, order_by_desc_sorted.
    + intros page response. unfold CategoryPostsView_get. rewrite Hqs.
      cbn [bind].
      destruct (paginate_queryset _ _ _) as [pg|e] eqn:Hpg; [|done].
      cbn. intros [= <-].
      apply paginate_queryset_slice in Hpg as [Hlen [n Hn]]. eauto.
    + intros i r Hi. unfold CategoryPostsView_get. rewrite Hqs. cbn [bind].
      apply paginate_queryset_rank in Hi as (pg & -> & Hr). eauto.
Qed.

Lemma unique_slug_example : unique_slug Example.db.
Proof. unfold unique_slug. refine (bool_decide_unpack _ _). by vm_compute. Defined.

Lemma CategoryPostsView_category_feed_witness :
  (forall page,
     CategoryPostsView_get Example.db Example.now
       {[ "category_slug" := "drafts" ]} page = Raise Http404)
  /\ exists feed,
       CategoryPostsView_get_queryset Example.db Example.now
         {[ "category_slug" := "news" ]} =
         Ok ((1, {| slug := "news"; category_is_published := true |}), feed)
       /\ NoDup feed.*1.*1.
Proof.
  split.
  - apply (CategoryPostsView_category_feed Example.db Example.now
             {[ "category_slug" := "drafts" ]} "drafts");
      [by vm_compute | exact unique_slug_example |].
    intros k c Hk Hs.
    destruct (decide (k = 2)) as [->|Hne].
    + vm_compute in Hk. by injection Hk as <-.
    + destruct (decide (k = 1)) as [->|Hne1].
      * vm_compute in Hk. injection Hk as <-. discriminate Hs.
      * exfalso. unfold Example.db in Hk. cbn [Category_objects] in Hk.
        rewrite lookup_insert_ne, lookup_singleton_ne in Hk by done.
        discriminate Hk.
  - destruct (proj2 (CategoryPostsView_category_feed Example.db Example.now
                       {[ "category_slug" := "news" ]} "news"
                       ltac:(by vm_compute) unique_slug_example)
                1 {| slug := "news"; category_is_published := true |}
                ltac:(by vm_compute) eq_refl eq_refl)
      as (feed & Hqs & _ & Hnd & _).
    by exists feed.
Defined.

(** ** The profile feed *)

(** C8. The profile listing of a user holds every post the user wrote,
    whatever its publication state, and no post of anyone else, each once,
    by publication date descending; the view does not look at the
    requester.  Every page holds at most ten consecutive entries, the
    entry of rank [i] is served on page [i / 10 + 1], and the user is in
    the context. *)
Theorem ProfileView_profile_feed (db : DB) (kwargs : gmap string string)
    (k : nat) (u : User) :
  kwargs !! "username" = Some (username u) ->
  unique_username db ->
  User_objects db !! k = Some u ->
  exists feed,
    ProfileView_get_queryset db kwargs = Ok feed
    /\ (forall j p, (j, p) ∈ feed.*1 <->
          Post_objects db !! j = Some p /\ author p = k)
    /\ NoDup feed.*1.*1
    /\ StronglySorted (desc (fun r : nat * Post * nat => pub_date r.1.2)) feed
    /\ (forall page response, ProfileView_get db kwargs page = Ok response ->
          exists page_obj n,
            response = TemplateResponse "blog/profile.html"
                         (ListContext page_obj None (Some (k, u)))
            /\ length page_obj <= 10
            /\ page_obj = take 10 (drop (n * 10) feed))
    /\ (forall i r, feed !! i = Some r ->
          exists page_obj,
            ProfileView_get db kwargs (PageInt (Z.of_nat (i / 10 + 1))) =
              Ok (TemplateResponse "blog/profile.html"
                    (ListContext page_obj None (Some (k, u))))
            /\ page_obj !! (i mod 10) = Some r).
Proof.
  intros Hkw Huniq Hk.
  pose proof (get_user_by_username db (username u) k u Huniq Hk eq_refl) as Hu.
  assert (Hqs : ProfileView_get_queryset db kwargs =
    Ok (order_by_desc (fun r : nat * Post * nat => pub_date r.1.2)
          (annotate_comment_count db
             (filter (fun r : nat * Post => author r.2 = k)
                (objects_all (Post_objects db)))))).
  { unfold ProfileView_get_queryset, getitem. rewrite Hkw. cbn [bind].
    by rewrite Hu. }
  eexists. split; [exact Hqs|]. split_and!.
  - intros j p. rewrite order_by_desc_Permutation.
    rewrite annotate_comment_count_fst, list_elem_of_filter.
    unfold objects_all. rewrite elem_of_map_to_list. cbn. tauto.
  - rewrite order_by_desc_Permutation, annotate_comment_count_fst.
    eapply sublist_NoDup; [apply (NoDup_fst_map_to_list (Post_objects db))|].
    apply fmap_sublist, sublist_filter.
  - apply order_by_desc_sorted.
  - intros page response. unfold ProfileView_get. rewrite Hqs. cbn [bind].
    destruct (paginate_queryset _ _ _) as [pg|e] eqn:Hpg; [|done].
    unfold getitem. rewrite Hkw. cbn [bind]. rewrite Hu. cbn [bind].
    intros [= <-]. apply paginate_queryset_slice in Hpg as [Hlen [n Hn]]. eauto.
  - intros i r Hi. unfold ProfileView_get. rewrite Hqs. cbn [bind].
    apply paginate_queryset_rank in Hi as (pg & -> & Hr).
    unfold getitem. rewrite Hkw. cbn [bind]. rewrite Hu. cbn [bind]. eauto.
Qed.

Lemma unique_username_example : unique_username Example.db.
Proof.
  unfold unique_username. refine (bool_decide_unpack _ _). by vm_compute.
Defined.

Lemma ProfileView_profile_feed_witness :
  exists feed,
    ProfileView_get_queryset Example.db {[ "username" := "ann" ]} = Ok feed
    /\ (forall j p, (j, p) ∈ feed.*1 <->
          Post_objects Example.db !! j = Some p /\ author p = 1).
Proof.
  destruct (ProfileView_profile_feed Example.db {[ "username" := "ann" ]}
              1 {| username := "ann" |}
              ltac:(by vm_compute) unique_username_example ltac:(by vm_compute))
    as (feed & Hqs & Hin & _).
  by exists feed.
Defined.

(** ** Comments: what an accepted request does *)

(** C9, as stated, fails: after [bob] edits his comment on post [8], the
    response redirects to the index page, not to the detail view of the
    post. *)
Lemma EditCommentView_success_not_post_detail :
  let kwargs : gmap string nat := {[ "post_id" := 8; "comment_id" := 1 ]} in
  let form := {| form_comment_text := "edited" |} in
  (comment_post <$> Comment_objects Example.db !! 1) = Some 8
  /\ (comment_author <$> Comment_objects Example.db !! 1) = Some 2
  /\ (EditCommentView_dispatch Example.db (AuthUser 2) POST kwargs (Some form)).1
     = Ok (HttpResponseRedirect blog_index)
  /\ (EditCommentView_dispatch Example.db (AuthUser 2) POST kwargs (Some form)).1
     <> Ok (HttpResponseRedirect (blog_post_detail 8)).
Proof. split_and!; by vm_compute. Qed.

(** What saving a comment form does to the table of comments. *)
Lemma CommentForm_save_lookup (db : DB) (form : CommentForm) (k j : nat)
    (c : Comment) :
  Comment_objects (CommentForm_save form (k, c) db) !! j =
    if decide (k = j)
    then Some {| comment_text := form_comment_text form;
                 comment_post := comment_post c;
                 comment_author := comment_author c;
                 created_at := created_at c |}
    else Comment_objects db !! j.
Proof. cbn. apply lookup_insert. Qed.

Lemma EditCommentView_dispatch_author (db : DB) (kwargs : gmap string nat)
    (form : CommentForm) (k : nat) (c : Comment) :
  kwargs !! "comment_id" = Some k ->
  Comment_objects db !! k = Some c ->
  EditCommentView_dispatch db (AuthUser (comment_author c)) POST kwargs
    (Some form) =
    (Ok (HttpResponseRedirect blog_index), CommentForm_save form (k, c) db).
Proof.
  intros Hk Hc.
  unfold EditCommentView_dispatch, EditCommentView_get_object,
    LoginRequiredMixin_dispatch, UpdateView_dispatch.
  rewrite Hk, get_object_or_404_pk_all, Hc. cbn [snd].
  by rewrite author_eq_true.
Qed.

(** C9, amended.  When its author submits a valid form for a comment, the
    body of the form is stored in the comment, every other field and every
    other comment stay, and the response redirects to the index page. *)
Theorem EditCommentView_success (db : DB) (kwargs : gmap string nat)
    (form : CommentForm) (k : nat) (c : Comment) :
  kwargs !! "comment_id" = Some k ->
  Comment_objects db !! k = Some c ->
  exists db',
    EditCommentView_dispatch db (AuthUser (comment_author c)) POST kwargs
      (Some form) = (Ok (HttpResponseRedirect blog_index), db')
    /\ Comment_objects db' !! k =
         Some {| comment_text := form_comment_text form;
                 comment_post := comment_post c;
                 comment_author := comment_author c;
                 created_at := created_at c |}
    /\ (forall j, j <> k -> Comment_objects db' !! j = Comment_objects db !! j)
    /\ Post_objects db' = Post_objects db.
Proof.
  intros Hk Hc. eexists. split; [by apply EditCommentView_dispatch_author|].
  split_and!.
  - rewrite CommentForm_save_lookup. by rewrite decide_True.
  - intros j Hj. rewrite CommentForm_save_lookup. by rewrite decide_False.
  - done.
Qed.

Lemma EditCommentView_success_witness :
  let kwargs : gmap string nat := {[ "post_id" := 8; "comment_id" := 1 ]} in
  exists db',
    EditCommentView_dispatch Example.db (AuthUser 2) POST kwargs
      (Some {| form_comment_text := "edited" |}) =
      (Ok (HttpResponseRedirect blog_index), db')
    /\ Comment_objects db' !! 1 =
         Some {| comment_text := "edited"; comment_post := 8;
                 comment_author := 2; created_at := 9 |}.
Proof.
  intros kwargs.
  destruct (EditCommentView_success Example.db kwargs
              {| form_comment_text := "edited" |} 1
              {| comment_text := "first"; comment_post := 8;
                 comment_author := 2; created_at := 9 |}
              ltac:(by vm_compute) ltac:(by vm_compute))
    as (db' & Hd & Hc & _).
  by exists db'.
Defined.

(** What deleting a comment does to the table of comments. *)
Lemma Comment_delete_lookup (db : DB) (k j : nat) :
  Comment_objects (Comment_delete k db) !! j =
    if decide (k = j) then None else Comment_objects db !! j.
Proof. cbn. apply lookup_delete. Qed.

(** C10. The comment views find the comment by the [comment_id] of the
    URL alone: whatever [post_id] the URL names, related to the comment or
    not, naming a post or not, the edit of its author stores the body of
    the form in that comment and the delete of its author removes that
    comment, every other comment and every post staying as they were; and
    the delete redirects to the detail view of the post the URL names. *)
Theorem comment_views_ignore_post_id (db : DB) (kwargs : gmap string nat)
    (form : CommentForm) (k post_id : nat) (c : Comment) :
  kwargs !! "comment_id" = Some k ->
  kwargs !! "post_id" = Some post_id ->
  Comment_objects db !! k = Some c ->
  (exists db',
     EditCommentView_dispatch db (AuthUser (comment_author c)) POST kwargs
       (Some form) = (Ok (HttpResponseRedirect blog_index), db')
     /\ Comment_objects db' !! k =
          Some {| comment_text := form_comment_text form;
                  comment_post := comment_post c;
                  comment_author := comment_author c;
                  created_at := created_at c |}
     /\ (forall j, j <> k -> Comment_objects db' !! j = Comment_objects db !! j)
     /\ Post_objects db' = Post_objects db
     /\ User_objects db' = User_objects db
     /\ Category_objects db' = Category_objects db)
  /\ (exists db',
     DeleteCommentView_dispatch db (AuthUser (comment_author c)) POST kwargs =
       (Ok (HttpResponseRedirect (blog_post_detail post_id)), db')
     /\ Comment_objects db' !! k = None
     /\ (forall j, j <> k -> Comment_objects db' !! j = Comment_objects db !! j)
     /\ Post_objects db' = Post_objects db
     /\ User_objects db' = User_objects db
     /\ Category_objects db' = Category_objects db).
Proof.
  intros Hk Hpost Hc. split.
  - exists (CommentForm_save form (k, c) db). split_and!; [|..|done|done|done].
    + by apply EditCommentView_dispatch_author.
    + rewrite CommentForm_save_lookup. by rewrite decide_True.
    + intros j Hj. rewrite CommentForm_save_lookup. by rewrite decide_False.
  - exists (Comment_delete k db). split_and!; [|..|done|done|done].
    + unfold DeleteCommentView_dispatch, DeleteCommentView_get_object,
        DeleteCommentView_get_success_url, SingleObjectMixin_get_object,
        LoginRequiredMixin_dispatch, DeleteView_dispatch.
      rewrite Hk, get_object_or_404_pk_all, Hc. cbn [snd].
      rewrite author_eq_true. cbn [negb is_authenticated fst].
      by rewrite Hpost.
    + rewrite Comment_delete_lookup. by rewrite decide_True.
    + intros j Hj. rewrite Comment_delete_lookup. by rewrite decide_False.
Qed.

Lemma comment_views_ignore_post_id_witness :
  let kwargs : gmap string nat := {[ "post_id" := 99; "comment_id" := 1 ]} in
  Post_objects Example.db !! 99 = None
  /\ (comment_post <$> Comment_objects Example.db !! 1) = Some 8
  /\ (exists db',
       EditCommentView_dispatch Example.db (AuthUser 2) POST kwargs
         (Some {| form_comment_text := "edited" |}) =
         (Ok (HttpResponseRedirect blog_index), db')
       /\ Comment_objects db' !! 1 =
            Some {| comment_text := "edited"; comment_post := 8;
                    comment_author := 2; created_at := 9 |})
  /\ (exists db',
       DeleteCommentView_dispatch Example.db (AuthUser 2) POST kwargs =
         (Ok (HttpResponseRedirect (blog_post_detail 99)), db')
       /\ Comment_objects db' !! 1 = None).
Proof.
  intros kwargs.
  destruct (comment_views_ignore_post_id Example.db kwargs
              {| form_comment_text := "edited" |} 1 99
              {| comment_text := "first"; comment_post := 8;
                 comment_author := 2; created_at := 9 |}
              ltac:(by vm_compute) ltac:(by vm_compute) ltac:(by vm_compute))
    as [(dbe & Hedit & Hrow & _) (dbd & Hdel & Hgone & _)].
  split_and!; [by vm_compute | by vm_compute | |].
  - by exists dbe.
  - by exists dbd.
Defined.

(** * Further properties *)

(** ** Helpers *)

Lemma get_object_or_404_id_None {A} (l : list (nat * A)) :
  get_object_or_404 (id_is None) l = Raise Http404.
Proof. unfold get_object_or_404. by rewrite filter_none. Qed.

Lemma elem_of_order_by {A} (key : A -> Z) (l : list A) (x : A) :
  x ∈ order_by key l <-> x ∈ l.
Proof. by rewrite order_by_Permutation. Qed.

Lemma named_post_Some db kwargs key k p :
  named_post db kwargs key = Some (k, p) <->
  kwargs !! key = Some k /\ Post_objects db !! k = Some p.
Proof.
  unfold named_post. split.
  - destruct (kwargs !! key) as [k'|]; [|done]. cbn.
    destruct (Post_objects db !! k') as [p'|] eqn:E; [|done]. cbn.
    intros [= -> ->]. done.
  - intros [-> Hp]. cbn. by rewrite Hp.
Qed.

(** The detail view, once the post of the URL is found. *)
Lemma PostDetailView_get_object_found (db : DB) (now : Z) (user : RequestUser)
    (kwargs : gmap string nat) (k : nat) (p : Post) :
  kwargs !! "post_id" = Some k ->
  Post_objects db !! k = Some p ->
  PostDetailView_get_object db now user kwargs =
    if author_eq (author p) user then Ok (k, p)
    else if is_published p then
      match category p with
      | None => Raise AttributeError
      | Some cid =>
          match Category_objects db !! cid with
          | None => Raise DoesNotExist
          | Some c =>
              if category_is_published c && bool_decide (pub_date p <= now)%Z
              then Ok (k, p) else Raise Http404
          end
      end
    else Raise Http404.
Proof.
  intros Hk Hp. unfold PostDetailView_get_object, Post_category.
  rewrite Hk, get_object_or_404_pk_all, Hp. cbn.
  destruct (author_eq (author p) user); [done|]. cbn.
  destruct (is_published p); [|done]. cbn.
  destruct (category p) as [cid|]; [|done].
  destruct (Category_objects db !! cid) as [c|]; [|done]. cbn.
  by destruct (category_is_published c).
Qed.

Lemma PostDetailView_get_object_missing (db : DB) (now : Z)
    (user : RequestUser) (kwargs : gmap string nat) :
  named_post db kwargs "post_id" = None ->
  PostDetailView_get_object db now user kwargs = Raise Http404.
Proof.
  unfold named_post, PostDetailView_get_object.
  destruct (kwargs !! "post_id") as [k|]; cbn.
  - rewrite get_object_or_404_pk_all.
    by destruct (Post_objects db !! k).
  - by rewrite get_object_or_404_id_None.
Qed.

Lemma PostDetailView_get_object_Ok (db : DB) (now : Z) (user : RequestUser)
    (kwargs : gmap string nat) (post : nat * Post) :
  PostDetailView_get_object db now user kwargs = Ok post ->
  kwargs !! "post_id" = Some post.1 /\ Post_objects db !! post.1 = Some post.2.
Proof.
  intros H. destruct (named_post db kwargs "post_id") as [[k p]|] eqn:E.
  - apply named_post_Some in E as [Hk Hp].
    rewrite (PostDetailView_get_object_found _ _ _ _ k p Hk Hp) in H.
    assert (post = (k, p)) as ->; [|done].
    repeat case_match; congruence.
  - by rewrite PostDetailView_get_object_missing in H.
Qed.

(** ** The detail page *)

(** X1. A served detail page shows the post the URL names and, as its
    comments, exactly the comment rows of that post, each once, by
    creation time ascending. *)
Theorem PostDetailView_comment_thread (db : DB) (now : Z) (user : RequestUser)
    (kwargs : gmap string nat) (response : Response) :
  PostDetailView_get db now user kwargs = Ok response ->
  exists k p comments,
    response = TemplateResponse "blog/detail.html" (DetailContext (k, p) comments)
    /\ kwargs !! "post_id" = Some k
    /\ Post_objects db !! k = Some p
    /\ (forall j c, (j, c) ∈ comments <->
          Comment_objects db !! j = Some c /\ comment_post c = k)
    /\ NoDup comments
    /\ StronglySorted (asc (fun c : nat * Comment => created_at c.2)) comments.
Proof.
  unfold PostDetailView_get, PostDetailView_get_context_data.
  destruct (PostDetailView_get_object db now user kwargs) as [[k p]|e] eqn:E;
    [|done].
  cbn. intros [= <-].
  apply PostDetailView_get_object_Ok in E as [Hk Hp]. cbn in Hk, Hp.
  eexists k, p, _. split_and!; [done..| | |].
  - intros j c. rewrite elem_of_order_by, list_elem_of_filter.
    unfold objects_all. rewrite elem_of_map_to_list. cbn. tauto.
  - unfold order_by. rewrite merge_sort_Permutation.
    apply NoDup_filter, NoDup_map_to_list.
  - apply order_by_sorted.
Qed.

Lemma PostDetailView_comment_thread_witness :
  exists k p comments,
    TemplateResponse "blog/detail.html"
      (DetailContext (8, Example.post 1 true 6 (Some 1))
         [(1, {| comment_text := "first"; comment_post := 8;
                 comment_author := 2; created_at := 9 |})])
    = TemplateResponse "blog/detail.html" (DetailContext (k, p) comments)
    /\ (forall j c, (j, c) ∈ comments <->
          Comment_objects Example.db !! j = Some c /\ comment_post c = k).
Proof.
  destruct (PostDetailView_comment_thread Example.db Example.now AnonymousUser
              {[ "post_id" := 8 ]}
              (TemplateResponse "blog/detail.html"
                 (DetailContext (8, Example.post 1 true 6 (Some 1))
                    [(1, {| comment_text := "first"; comment_post := 8;
                            comment_author := 2; created_at := 9 |})]))
              ltac:(by vm_compute))
    as (k & p & comments & H1 & _ & _ & H2 & _).
  by exists k, p, comments.
Defined.

(** X2. The author of a post is served it whatever its state: unpublished,
    dated in the future, without a category or in an unpublished one. *)
Theorem PostDetailView_author_always (db : DB) (now : Z)
    (kwargs : gmap string nat) (k : nat) (p : Post) :
  kwargs !! "post_id" = Some k ->
  Post_objects db !! k = Some p ->
  exists comments,
    PostDetailView_get db now (AuthUser (author p)) kwargs =
      Ok (TemplateResponse "blog/detail.html" (DetailContext (k, p) comments)).
Proof.
  intros Hk Hp. unfold PostDetailView_get, PostDetailView_get_context_data.
  rewrite (PostDetailView_get_object_found _ _ _ _ k p Hk Hp).
  rewrite author_eq_true. cbn. eauto.
Qed.

Lemma PostDetailView_author_always_witness :
  (exists comments,
     PostDetailView_get Example.db Example.now (AuthUser 1) {[ "post_id" := 7 ]} =
       Ok (TemplateResponse "blog/detail.html"
             (DetailContext (7, Example.post 1 true 5 None) comments)))
  /\ (exists comments,
     PostDetailView_get Example.db Example.now (AuthUser 2) {[ "post_id" := 10 ]} =
       Ok (TemplateResponse "blog/detail.html"
             (DetailContext (10, Example.post 2 false 3 (Some 1)) comments))).
Proof.
  split.
  - apply (PostDetailView_author_always Example.db Example.now
             {[ "post_id" := 7 ]} 7 (Example.post 1 true 5 None));
      by vm_compute.
  - apply (PostDetailView_author_always Example.db Example.now
             {[ "post_id" := 10 ]} 10 (Example.post 2 false 3 (Some 1)));
      by vm_compute.
Defined.

(** X3. A post whose category exists is served to a requester who is not
    its author exactly when it is published, its category is published
    and its publication date has come; otherwise the request is answered
    with 404. *)
Theorem PostDetailView_public_visibility (db : DB) (now : Z)
    (user : RequestUser) (kwargs : gmap string nat) (k cid : nat)
    (p : Post) (c : Category) :
  kwargs !! "post_id" = Some k ->
  Post_objects db !! k = Some p ->
  category p = Some cid ->
  Category_objects db !! cid = Some c ->
  user <> AuthUser (author p) ->
  (is_published p = true /\ category_is_published c = true
   /\ (pub_date p <= now)%Z ->
   PostDetailView_get_object db now user kwargs = Ok (k, p))
  /\ (~ (is_published p = true /\ category_is_published c = true
         /\ (pub_date p <= now)%Z) ->
      PostDetailView_get db now user kwargs = Raise Http404).
Proof.
  intros Hk Hp Hcat Hc Hu.
  unfold PostDetailView_get.
  rewrite (PostDetailView_get_object_found _ _ _ _ k p Hk Hp).
  rewrite (author_eq_false _ _ Hu), Hcat, Hc. split.
  - intros (-> & -> & Hd). by rewrite bool_decide_eq_true_2.
  - intros Hnot. destruct (is_published p); [|done].
    destruct (category_is_published c); [|done].
    rewrite bool_decide_eq_false_2; [done|]. intros Hd. by apply Hnot.
Qed.

Lemma PostDetailView_public_visibility_witness :
  PostDetailView_get_object Example.db Example.now AnonymousUser
    {[ "post_id" := 8 ]} = Ok (8, Example.post 1 true 6 (Some 1))
  /\ PostDetailView_get Example.db Example.now (AuthUser 2)
       {[ "post_id" := 11 ]} = Raise Http404
  /\ PostDetailView_get Example.db Example.now (AuthUser 2)
       {[ "post_id" := 12 ]} = Raise Http404.
Proof.
  split_and!.
  - apply (PostDetailView_public_visibility Example.db Example.now AnonymousUser
             {[ "post_id" := 8 ]} 8 1 (Example.post 1 true 6 (Some 1))
             {| slug := "news"; category_is_published := true |});
      [by vm_compute | by vm_compute | done | by vm_compute | discriminate |].
    by vm_compute.
  - apply (PostDetailView_public_visibility Example.db Example.now (AuthUser 2)
             {[ "post_id" := 11 ]} 11 1 (Example.post 1 true 50 (Some 1))
             {| slug := "news"; category_is_published := true |});
      [by vm_compute | by vm_compute | done | by vm_compute | discriminate |].
    intros (_ & _ & Hd). by vm_compute in Hd.
  - apply (PostDetailView_public_visibility Example.db Example.now (AuthUser 2)
             {[ "post_id" := 12 ]} 12 2 (Example.post 1 true 4 (Some 2))
             {| slug := "drafts"; category_is_published := false |});
      [by vm_compute | by vm_compute | done | by vm_compute | discriminate |].
    intros (_ & Hc & _). discriminate Hc.
Defined.

(** X4. The detail view never answers with a permission error.  For a
    request whose [post_id], if any, is in the range of keys, when the
    view fails it fails with 404, except for a published post requested
    by someone else than its author whose category is missing: none at
    all ([AttributeError]) or a dangling key ([DoesNotExist]). *)
Theorem PostDetailView_get_object_errors (db : DB) (now : Z)
    (user : RequestUser) (kwargs : gmap string nat) (e : Exn) :
  (forall k, kwargs !! "post_id" = Some k -> in_key_range k) ->
  PostDetailView_get_object db now user kwargs = Raise e ->
  e <> PermissionDenied
  /\ (e = Http404
      \/ exists k p,
           kwargs !! "post_id" = Some k
           /\ Post_objects db !! k = Some p
           /\ is_published p = true
           /\ user <> AuthUser (author p)
           /\ ((e = AttributeError /\ category p = None)
               \/ (e = DoesNotExist
                   /\ exists cid, category p = Some cid
                        /\ Category_objects db !! cid = None))).
Proof.
  intros _ H.
  assert (Hcases : e = Http404
      \/ exists k p,
           kwargs !! "post_id" = Some k
           /\ Post_objects db !! k = Some p
           /\ is_published p = true
           /\ user <> AuthUser (author p)
           /\ ((e = AttributeError /\ category p = None)
               \/ (e = DoesNotExist
                   /\ exists cid, category p = Some cid
                        /\ Category_objects db !! cid = None))).
  { destruct (named_post db kwargs "post_id") as [[k p]|] eqn:E.
    - apply named_post_Some in E as [Hk Hp].
      rewrite (PostDetailView_get_object_found _ _ _ _ k p Hk Hp) in H.
      destruct (author_eq (author p) user) eqn:Ha; [done|].
      assert (Hu : user <> AuthUser (author p)).
      { intros ->. by rewrite author_eq_true in Ha. }
      destruct (is_published p) eqn:Hpub; [|left; congruence].
      destruct (category p) as [cid|] eqn:Hcat.
      + destruct (Category_objects db !! cid) as [c|] eqn:Hc.
        * case_match; [done|]. left; congruence.
        * right. exists k, p. split_and!; [done..|]. right.
          split; [congruence|]. eauto.
      + right. exists k, p. split_and!; [done..|]. left.
        split; [congruence|done].
    - rewrite PostDetailView_get_object_missing in H by done.
      left; congruence. }
  split; [|done].
  destruct Hcases as [->|(k & p & _ & _ & _ & _ & [[-> _]|[-> _]])]; done.
Qed.

Lemma PostDetailView_get_object_errors_witness :
  AttributeError <> PermissionDenied
  /\ (AttributeError = Http404
      \/ exists k p,
           ({[ "post_id" := 7 ]} : gmap string nat) !! "post_id" = Some k
           /\ Post_objects Example.db !! k = Some p
           /\ is_published p = true
           /\ AnonymousUser <> AuthUser (author p)
           /\ ((AttributeError = AttributeError /\ category p = None)
               \/ (AttributeError = DoesNotExist
                   /\ exists cid, category p = Some cid
                        /\ Category_objects Example.db !! cid = None))).
Proof.
  apply (PostDetailView_get_object_errors Example.db Example.now AnonymousUser
           {[ "post_id" := 7 ]} AttributeError).
  - intros k Hk. vm_compute in Hk. injection Hk as <-. by vm_compute.
  - by vm_compute.
Defined.

(** ** Requests for objects that do not exist *)

(** X5. A request that names, by an id in the range of keys, a post that
    does not exist is answered with 404 by the detail view, by the edit
    view (for anyone, the anonymous user included), by the delete view
    and by the comment form of an authenticated user; nothing is
    stored. *)
Theorem missing_post_404 (db : DB) (now : Z) (user : RequestUser)
    (uid : nat) (method : Method) (kwargs : gmap string nat)
    (pform : option PostForm) (cform : CommentForm) (new_id k : nat) :
  in_key_range k ->
  Post_objects db !! k = None ->
  (kwargs !! "post_id" = Some k ->
     PostDetailView_get db now user kwargs = Raise Http404
     /\ PostDeleteView_dispatch db (AuthUser uid) method kwargs =
          (Raise Http404, db)
     /\ AddCommentView_dispatch db now (AuthUser uid) POST kwargs (Some cform)
          new_id = (Raise Http404, db))
  /\ (kwargs !! "pk" = Some k ->
      PostUpdateView_dispatch db user method kwargs pform = (Raise Http404, db)).
Proof.
  intros _ Hp. split.
  - intros Hk. split_and!.
    + unfold PostDetailView_get.
      rewrite PostDetailView_get_object_missing; [done|].
      unfold named_post. rewrite Hk. cbn. by rewrite Hp.
    + unfold PostDeleteView_dispatch, LoginRequiredMixin_dispatch,
        DeleteView_dispatch, PostDeleteView_get_object,
        PostDeleteView_get_queryset, SingleObjectMixin_get_object.
      cbn [is_authenticated bind].
      by rewrite Hk, get_object_or_404_pk, Hp.
    + unfold AddCommentView_dispatch, AddCommentView_form_valid.
      by rewrite Hk, get_object_or_404_pk_all, Hp.
  - intros Hk.
    unfold PostUpdateView_dispatch, PostUpdateView_test_func,
      PostUpdateView_get_object, SingleObjectMixin_get_object.
    by rewrite Hk, get_object_or_404_pk_all, Hp.
Qed.

Lemma missing_post_404_witness :
  PostDetailView_get Example.db Example.now (AuthUser 1) {[ "post_id" := 99 ]}
    = Raise Http404
  /\ PostUpdateView_dispatch Example.db AnonymousUser POST {[ "pk" := 99 ]} None
    = (Raise Http404, Example.db).
Proof.
  pose proof (missing_post_404 Example.db Example.now (AuthUser 1) 1 POST
                {[ "post_id" := 99 ]} None {| form_comment_text := "x" |} 0 99
                ltac:(by vm_compute) ltac:(by vm_compute)) as [H1 _].
  pose proof (missing_post_404 Example.db Example.now AnonymousUser 1 POST
                {[ "pk" := 99 ]} None {| form_comment_text := "x" |} 0 99
                ltac:(by vm_compute) ltac:(by vm_compute)) as [_ H2].
  split.
  - apply H1. by vm_compute.
  - apply H2. by vm_compute.
Defined.

(** X6. A request to edit or delete, by an id in the range of keys, a
    comment that does not exist is answered with 404 for every requester,
    the anonymous user included, and changes nothing. *)
Theorem missing_comment_404 (db : DB) (user : RequestUser) (method : Method)
    (kwargs : gmap string nat) (form : option CommentForm) (k : nat) :
  kwargs !! "comment_id" = Some k ->
  in_key_range k ->
  Comment_objects db !! k = None ->
  EditCommentView_dispatch db user method kwargs form = (Raise Http404, db)
  /\ DeleteCommentView_dispatch db user method kwargs = (Raise Http404, db).
Proof.
  intros Hk _ Hc. split.
  - unfold EditCommentView_dispatch, EditCommentView_get_object.
    by rewrite Hk, get_object_or_404_pk_all, Hc.
  - unfold DeleteCommentView_dispatch, DeleteCommentView_get_object,
      SingleObjectMixin_get_object.
    by rewrite Hk, get_object_or_404_pk_all, Hc.
Qed.

Lemma missing_comment_404_witness :
  EditCommentView_dispatch Example.db AnonymousUser POST
    {[ "post_id" := 8; "comment_id" := 5 ]} None = (Raise Http404, Example.db)
  /\ DeleteCommentView_dispatch Example.db AnonymousUser POST
    {[ "post_id" := 8; "comment_id" := 5 ]} = (Raise Http404, Example.db).
Proof.
  apply (missing_comment_404 Example.db AnonymousUser POST
           {[ "post_id" := 8; "comment_id" := 5 ]} None 5); by vm_compute.
Defined.

(** ** What the views never write *)

(** X7. No view writes on a [GET] request, and no form view writes when
    the submitted form does not validate. *)
Theorem no_write_without_valid_POST (db : DB) (now : Z) (user : RequestUser)
    (method : Method) (kwargs : gmap string nat) (new_id : nat)
    (pform : option PostForm) (cform : option CommentForm)
    (uform : option UserProfileForm) :
  (method = GET \/ pform = None ->
     (PostUpdateView_dispatch db user method kwargs pform).2 = db
     /\ (PostCreateView_dispatch db user method pform new_id).2 = db)
  /\ (method = GET \/ cform = None ->
     (EditCommentView_dispatch db user method kwargs cform).2 = db
     /\ (AddCommentView_dispatch db now user method kwargs cform new_id).2 = db)
  /\ (method = GET \/ uform = None ->
     (EditProfileView_dispatch db user method uform).2 = db)
  /\ (PostDeleteView_dispatch db user GET kwargs).2 = db
  /\ (DeleteCommentView_dispatch db user GET kwargs).2 = db.
Proof.
  split_and!.
  - intros H. split.
    + unfold PostUpdateView_dispatch, UpdateView_dispatch.
      destruct (PostUpdateView_test_func db user kwargs) as [[]|]; [|done..].
      destruct (PostUpdateView_get_object db kwargs); [|done].
      destruct H as [->| ->]; [done|by destruct method].
    + unfold PostCreateView_dispatch. destruct user; [done|].
      destruct H as [->| ->]; [done|by destruct method].
  - intros H. split.
    + unfold EditCommentView_dispatch, LoginRequiredMixin_dispatch,
        UpdateView_dispatch.
      destruct (EditCommentView_get_object db kwargs); [|done].
      destruct (negb _); [done|]. destruct (is_authenticated user); [|done].
      destruct H as [->| ->]; [done|by destruct method].
    + unfold AddCommentView_dispatch. destruct user; [done|].
      destruct H as [->| ->]; [done|by destruct method].
  - intros H. unfold EditProfileView_dispatch. destruct user; [done|].
    destruct (EditProfileView_get_object db uid); [|done].
    destruct H as [->| ->]; [done|by destruct method].
  - unfold PostDeleteView_dispatch, LoginRequiredMixin_dispatch,
      DeleteView_dispatch.
    destruct (is_authenticated user); [|done].
    by destruct (PostDeleteView_get_object db user kwargs).
  - unfold DeleteCommentView_dispatch, LoginRequiredMixin_dispatch,
      DeleteView_dispatch.
    destruct (DeleteCommentView_get_object db kwargs); [|done].
    destruct (negb _); [done|]. by destruct (is_authenticated user).
Qed.

Lemma author_eq_inv (a : nat) (user : RequestUser) :
  author_eq a user = true -> user = AuthUser a.
Proof.
  destruct user as [|uid]; [done|]. cbn.
  intros H%bool_decide_eq_true. by subst.
Qed.



(** X10. The comment views check the author before the login: an
    anonymous request to edit or delete an existing comment is refused
    with [PermissionDenied], and no request to these views is ever
    redirected to the login page. *)
Theorem comment_views_refuse_before_login (db : DB) (user : RequestUser)
    (method : Method) (kwargs : gmap string nat) (form : option CommentForm) :
  (forall k c, kwargs !! "comment_id" = Some k ->
     Comment_objects db !! k = Some c ->
     EditCommentView_dispatch db AnonymousUser method kwargs form =
       (Raise PermissionDenied, db)
     /\ DeleteCommentView_dispatch db AnonymousUser method kwargs =
       (Raise PermissionDenied, db))
  /\ (EditCommentView_dispatch db user method kwargs form).1 <>
       Ok (HttpResponseRedirect login_url)
  /\ (DeleteCommentView_dispatch db user method kwargs).1 <>
       Ok (HttpResponseRedirect login_url).
Proof.
  split_and!.
  - intros k c Hk Hc. split.
    + unfold EditCommentView_dispatch, EditCommentView_get_object.
      by rewrite Hk, get_object_or_404_pk_all, Hc.
    + unfold DeleteCommentView_dispatch, DeleteCommentView_get_object,
        SingleObjectMixin_get_object.
      by rewrite Hk, get_object_or_404_pk_all, Hc.
  - unfold EditCommentView_dispatch, LoginRequiredMixin_dispatch,
      UpdateView_dispatch.
    destruct (EditCommentView_get_object db kwargs) as [[k c]|]; [|done].
    cbn [snd]. destruct (author_eq (comment_author c) user) eqn:Hau; [|done].
    apply author_eq_inv in Hau as ->. cbn. by destruct method, form.
  - unfold DeleteCommentView_dispatch, LoginRequiredMixin_dispatch,
      DeleteView_dispatch, DeleteCommentView_get_success_url,
      reverse_post_detail.
    destruct (DeleteCommentView_get_object db kwargs) as [[k c]|]; [|done].
    cbn [snd]. destruct (author_eq (comment_author c) user) eqn:Hau; [|done].
    apply author_eq_inv in Hau as ->. cbn.
    destruct method; [done|]. by destruct (kwargs !! "post_id").
Qed.

(** ** Editing a post, and looking at it again *)

Lemma PostForm_save_lookup (db : DB) (form : PostForm) (k j : nat) (p : Post) :
  Post_objects (PostForm_save form (k, p) db) !! j =
    if decide (k = j)
    then Some {| title := form_title form;
                 text := form_text form;
                 pub_date := form_pub_date form;
                 author := author p;
                 category := form_category form;
                 location := form_location form;
                 is_published := form_is_published form |}
    else Post_objects db !! j.
Proof. cbn. apply lookup_insert. Qed.

(** X11. When its author submits a valid form for a post, the response
    redirects to the detail view of that post, the post keeps its key and
    its author and takes every other field from the form, every other
    post stays as it was, and the detail view then serves the author the
    edited post. *)
Theorem PostUpdateView_success (db : DB) (kwargs : gmap string nat)
    (form : PostForm) (k : nat) (p : Post) :
  kwargs !! "pk" = Some k ->
  Post_objects db !! k = Some p ->
  exists db' p',
    PostUpdateView_dispatch db (AuthUser (author p)) POST kwargs (Some form) =
      (Ok (HttpResponseRedirect (blog_post_detail k)), db')
    /\ p' = {| title := form_title form;
               text := form_text form;
               pub_date := form_pub_date form;
               author := author p;
               category := form_category form;
               location := form_location form;
               is_published := form_is_published form |}
    /\ Post_objects db' !! k = Some p'
    /\ (forall j, j <> k -> Post_objects db' !! j = Post_objects db !! j)
    /\ Comment_objects db' = Comment_objects db
    /\ (forall now kw, kw !! "post_id" = Some k ->
          PostDetailView_get_object db' now (AuthUser (author p)) kw = Ok (k, p')).
Proof.
  intros Hk Hp.
  assert (Hd : PostUpdateView_dispatch db (AuthUser (author p)) POST kwargs
                 (Some form) =
               (Ok (HttpResponseRedirect (blog_post_detail k)),
                PostForm_save form (k, p) db)).
  { unfold PostUpdateView_dispatch, PostUpdateView_test_func,
      PostUpdateView_get_object, SingleObjectMixin_get_object,
      UpdateView_dispatch.
    rewrite Hk, get_object_or_404_pk_all, Hp. cbn [bind snd is_authenticated].
    by rewrite author_eq_true. }
  assert (Hk' : Post_objects (PostForm_save form (k, p) db) !! k = Some
    {| title := form_title form; text := form_text form;
       pub_date := form_pub_date form; author := author p;
       category := form_category form; location := form_location form;
       is_published := form_is_published form |}).
  { rewrite PostForm_save_lookup. by rewrite decide_True. }
  eexists _, _. split; [exact Hd|]. split; [reflexivity|]. split_and!.
  - exact Hk'.
  - intros j Hj. rewrite PostForm_save_lookup. by rewrite decide_False.
  - done.
  - intros now kw Hkw.
    rewrite (PostDetailView_get_object_found _ _ _ _ k _ Hkw Hk').
    cbn [author]. by rewrite author_eq_true.
Qed.

Lemma PostUpdateView_success_witness :
  let form := {| form_title := "new"; form_text := "body"; form_pub_date := 3;
                 form_category := Some 2; form_location := None;
                 form_is_published := false |} in
  exists db' p',
    PostUpdateView_dispatch Example.db (AuthUser 1) POST {[ "pk" := 8 ]}
      (Some form) = (Ok (HttpResponseRedirect (blog_post_detail 8)), db')
    /\ Post_objects db' !! 8 = Some p'
    /\ title p' = "new" /\ author p' = 1.
Proof.
  intros form.
  destruct (PostUpdateView_success Example.db {[ "pk" := 8 ]} form 8
              (Example.post 1 true 6 (Some 1))
              ltac:(by vm_compute) ltac:(by vm_compute))
    as (db' & p' & Hd & Hp' & Hl & _).
  exists db', p'. split_and!; [exact Hd | exact Hl | by rewrite Hp'..].
Defined.

(** ** Deleting a post, and asking for it again *)

Lemma elem_of_PostListView_get_queryset (db : DB) (now : Z) (k : nat) (p : Post) :
  (k, p) ∈ (PostListView_get_queryset db now).*1 <->
  Post_objects db !! k = Some p
  /\ is_published p = true
  /\ (pub_date p <= now)%Z
  /\ category__is_published db p = true.
Proof.
  unfold PostListView_get_queryset.
  rewrite annotate_comment_count_fst, elem_of_order_by_desc.
  rewrite list_elem_of_filter. unfold objects_all.
  rewrite elem_of_map_to_list. cbn. tauto.
Qed.

(** X12. Once its author has deleted a post, the post is gone for
    everyone: the detail view answers 404 to any requester, a second
    delete is answered with 404 and changes nothing, and the global feed
    no longer lists the post while it lists every other post as before. *)
Theorem PostDeleteView_then_gone (db : DB) (kwargs : gmap string nat)
    (k : nat) (p : Post) :
  kwargs !! "post_id" = Some k ->
  Post_objects db !! k = Some p ->
  exists db',
    PostDeleteView_dispatch db (AuthUser (author p)) POST kwargs =
      (Ok (HttpResponseRedirect blog_index), db')
    /\ (forall now user, PostDetailView_get db' now user kwargs = Raise Http404)
    /\ (forall uid method,
          PostDeleteView_dispatch db' (AuthUser uid) method kwargs =
            (Raise Http404, db'))
    /\ (forall now j q,
          (j, q) ∈ (PostListView_get_queryset db' now).*1 <->
          j <> k /\ (j, q) ∈ (PostListView_get_queryset db now).*1).
Proof.
  intros Hk Hp. exists (Post_delete k db).
  assert (Hgone : Post_objects (Post_delete k db) !! k = None).
  { rewrite Post_delete_lookup. by rewrite decide_True. }
  split_and!.
  - unfold PostDeleteView_dispatch, LoginRequiredMixin_dispatch,
      DeleteView_dispatch, PostDeleteView_get_object,
      PostDeleteView_get_queryset, SingleObjectMixin_get_object.
    cbn [is_authenticated bind].
    rewrite Hk, get_object_or_404_pk, Hp. cbn [snd].
    by rewrite decide_True.
  - intros now user. unfold PostDetailView_get.
    rewrite PostDetailView_get_object_missing; [done|].
    unfold named_post. rewrite Hk. cbn [mbind option_bind].
    by rewrite Hgone.
  - intros uid method.
    unfold PostDeleteView_dispatch, LoginRequiredMixin_dispatch,
      DeleteView_dispatch, PostDeleteView_get_object,
      PostDeleteView_get_queryset, SingleObjectMixin_get_object.
    cbn [is_authenticated bind].
    by rewrite Hk, get_object_or_404_pk, Hgone.
  - intros now j q. rewrite !elem_of_PostListView_get_queryset.
    rewrite Post_delete_lookup.
    assert (category__is_published (Post_delete k db) q =
            category__is_published db q) as -> by done.
    case_decide as Hj.
    + subst j. split; [by intros [? _]|by intros [? _]].
    + split; [intros H; split; [congruence|exact H]|by intros [_ H]].
Qed.

Lemma PostDeleteView_then_gone_witness :
  exists db',
    PostDeleteView_dispatch Example.db (AuthUser 1) POST {[ "post_id" := 8 ]} =
      (Ok (HttpResponseRedirect blog_index), db')
    /\ (forall now user,
          PostDetailView_get db' now user {[ "post_id" := 8 ]} = Raise Http404).
Proof.
  destruct (PostDeleteView_then_gone Example.db {[ "post_id" := 8 ]} 8
              (Example.post 1 true 6 (Some 1))
              ltac:(by vm_compute) ltac:(by vm_compute))
    as (db' & Hd & H404 & _).
  by exists db'.
Defined.

(** ** The feeds and the detail page *)

(** X13. The global feed lists exactly the posts the detail view serves
    to the anonymous user. *)
Theorem global_feed_is_public_visibility (db : DB) (now : Z)
    (kwargs : gmap string nat) (k : nat) (p : Post) :
  kwargs !! "post_id" = Some k ->
  (k, p) ∈ (PostListView_get_queryset db now).*1 <->
  PostDetailView_get_object db now AnonymousUser kwargs = Ok (k, p).
Proof.
  intros Hk. rewrite elem_of_PostListView_get_queryset. split.
  - intros (Hp & Hpub & Hd & (cid & c & Hcat & Hc & Hcp)%category__is_published_true).
    rewrite (PostDetailView_get_object_found _ _ _ _ k p Hk Hp).
    cbn [author_eq]. rewrite Hpub, Hcat, Hc, Hcp.
    by rewrite bool_decide_eq_true_2.
  - intros H.
    destruct (PostDetailView_get_object_Ok _ _ _ _ _ H) as [_ Hp]. cbn in Hp.
    rewrite (PostDetailView_get_object_found _ _ _ _ k p Hk Hp) in H.
    cbn [author_eq] in H.
    destruct (is_published p) eqn:Hpub; [|done].
    destruct (category p) as [cid|] eqn:Hcat; [|done].
    destruct (Category_objects db !! cid) as [c|] eqn:Hc; [|done].
    destruct (category_is_published c) eqn:Hcp; [|done].
    case_bool_decide as Hd; [|done].
    split_and!; [done..|].
    apply category__is_published_true. eauto.
Qed.

Lemma global_feed_is_public_visibility_witness :
  (8, Example.post 1 true 6 (Some 1))
    ∈ (PostListView_get_queryset Example.db Example.now).*1.
Proof.
  apply (global_feed_is_public_visibility Example.db Example.now
           {[ "post_id" := 8 ]} 8 (Example.post 1 true 6 (Some 1)));
    by vm_compute.
Defined.

Lemma get_object_or_404_Ok {A} (f : A -> bool) (l : list A) (r : A) :
  get_object_or_404 f l = Ok r -> r ∈ l /\ f r = true.
Proof.
  unfold get_object_or_404, QuerySet_get.
  destruct (filter (fun r => f r = true) l) as [|x [|y l']] eqn:E; try done.
  intros [= ->].
  assert (Hr : r ∈ filter (fun r => f r = true) l) by (rewrite E; left).
  apply list_elem_of_filter in Hr. tauto.
Qed.

(** X14. Whenever the category view serves a listing, its category is a
    stored, published category with the slug of the URL, and the listing
    holds exactly the entries of the global feed that belong to that
    category, with the same comment counts. *)
Theorem category_feed_within_global_feed (db : DB) (now : Z)
    (kwargs : gmap string string) (k : nat) (c : Category)
    (feed : list (nat * Post * nat)) :
  CategoryPostsView_get_queryset db now kwargs = Ok ((k, c), feed) ->
  Category_objects db !! k = Some c
  /\ category_is_published c = true
  /\ kwargs !! "category_slug" = Some (slug c)
  /\ forall r, r ∈ feed <->
       r ∈ PostListView_get_queryset db now /\ category r.1.2 = Some k.
Proof.
  unfold CategoryPostsView_get_queryset, getitem.
  destruct (kwargs !! "category_slug") as [s|] eqn:Hkw; [|done]. cbn [bind].
  destruct (get_object_or_404 _ _) as [[k' c']|] eqn:Hget; [|done].
  cbn [bind fst]. intros [= -> -> <-].
  apply get_object_or_404_Ok in Hget as [Hin Hf].
  apply elem_of_map_to_list in Hin.
  apply andb_prop in Hf as [Hs%bool_decide_eq_true Hpub]. cbn in Hs, Hpub.
  split_and!; [done|done|by rewrite Hs|].
  intros r. unfold PostListView_get_queryset.
  rewrite list_elem_of_filter, !elem_of_annotate_comment_count.
  rewrite !elem_of_order_by_desc, !list_elem_of_filter.
  split.
  - intros (Hcp & ((Hp & Hd & Hcat) & Hr) & Hn). tauto.
  - intros ((((Hp & Hd & Hcp) & Hr) & Hn) & Hcat). tauto.
Qed.

Lemma category_feed_within_global_feed_witness :
  Category_objects Example.db !! 1 =
    Some {| slug := "news"; category_is_published := true |}
  /\ true = true
  /\ ({[ "category_slug" := "news" ]} : gmap string string) !! "category_slug"
     = Some "news"
  /\ forall r,
       r ∈ [(9, Example.post 2 true 7 (Some 1), 0);
            (8, Example.post 1 true 6 (Some 1), 1)] <->
       r ∈ PostListView_get_queryset Example.db Example.now
       /\ category r.1.2 = Some 1.
Proof.
  apply (category_feed_within_global_feed Example.db Example.now
           {[ "category_slug" := "news" ]} 1
           {| slug := "news"; category_is_published := true |}).
  by vm_compute.
Defined.

(** X15. The comment count a feed shows for a post is the number of
    comments its detail page shows, whoever asks for the page. *)
Theorem comment_count_is_thread_length (db : DB) (now : Z)
    (r : nat * Post * nat) (user : RequestUser) (kwargs : gmap string nat) :
  r ∈ PostListView_get_queryset db now ->
  kwargs !! "post_id" = Some r.1.1 ->
  exists comments,
    PostDetailView_get db now user kwargs =
      Ok (TemplateResponse "blog/detail.html" (DetailContext r.1 comments))
    /\ length comments = r.2.
Proof.
  destruct r as [[k p] n]. cbn [fst snd]. intros Hr Hk.
  assert (Hin : (k, p) ∈ (PostListView_get_queryset db now).*1).
  { apply list_elem_of_fmap. by exists (k, p, n). }
  apply elem_of_PostListView_get_queryset in Hin
    as (Hp & Hpub & Hd & (cid & c & Hcat & Hc & Hcp)%category__is_published_true).
  unfold PostListView_get_queryset in Hr.
  apply elem_of_annotate_comment_count in Hr as [_ Hn]. cbn in Hn.
  assert (Hobj : PostDetailView_get_object db now user kwargs = Ok (k, p)).
  { rewrite (PostDetailView_get_object_found _ _ _ _ k p Hk Hp).
    destruct (author_eq (author p) user); [done|].
    rewrite Hpub, Hcat, Hc, Hcp. by rewrite bool_decide_eq_true_2. }
  unfold PostDetailView_get, PostDetailView_get_context_data.
  rewrite Hobj. cbn [bind fst]. eexists. split; [done|].
  subst n. unfold order_by, Count_comments.
  by rewrite merge_sort_Permutation.
Qed.

Lemma comment_count_is_thread_length_witness :
  exists comments,
    PostDetailView_get Example.db Example.now AnonymousUser {[ "post_id" := 8 ]} =
      Ok (TemplateResponse "blog/detail.html"
            (DetailContext (8, Example.post 1 true 6 (Some 1)) comments))
    /\ length comments = 1.
Proof.
  apply (comment_count_is_thread_length Example.db Example.now
           (8, Example.post 1 true 6 (Some 1), 1) AnonymousUser
           {[ "post_id" := 8 ]}).
  - apply list_elem_of_lookup. exists 1. by vm_compute.
  - by vm_compute.
Defined.

(** ** Pages *)

Lemma Paginator_num_pages_covers (count : nat) :
  1 <= Paginator_num_pages count paginate_by
  /\ count <= Paginator_num_pages count paginate_by * 10.
Proof.
  unfold Paginator_num_pages, paginate_by.
  pose proof (Nat.div_mod_eq (Nat.max 1 count + 10 - 1) 10) as Hdm.
  pose proof (Nat.mod_upper_bound (Nat.max 1 count + 10 - 1) 10 ltac:(lia)).
  lia.
Qed.

Lemma paginate_queryset_in_range {A} (qs : list A) (i : nat) :
  i < Paginator_num_pages (length qs) paginate_by ->
  paginate_queryset qs paginate_by (PageInt (Z.of_nat (i + 1))) =
    Ok (take 10 (drop (i * 10) qs)).
Proof.
  intros Hi. unfold paginate_queryset, Paginator_page. cbn [bind].
  rewrite bool_decide_eq_false_2 by lia.
  rewrite bool_decide_eq_false_2 by lia.
  unfold paginate_by. do 3 f_equal. lia.
Qed.

Lemma paginate_queryset_out_of_range {A} (qs : list A) (i : Z) :
  (i < 1 \/ Z.of_nat (Paginator_num_pages (length qs) paginate_by) < i)%Z ->
  paginate_queryset qs paginate_by (PageInt i) = Raise Http404.
Proof.
  intros Hi. unfold paginate_queryset, Paginator_page. cbn [bind].
  case_bool_decide; [done|]. by rewrite bool_decide_eq_true_2 by lia.
Qed.

Lemma pages_concat {A} (l : list A) (p n : nat) :
  concat ((fun i => take p (drop (i * p) l)) <$> seq 0 n) = take (n * p) l.
Proof.
  induction n as [|n IH]; [done|].
  rewrite seq_S, fmap_app, concat_app, IH. cbn.
  rewrite app_nil_r, take_take_drop. f_equal. lia.
Qed.

(** X16. The pages of the global feed cut it without loss or overlap:
    there are [num_pages] of them, page [i + 1] is the [i]-th, and put end
    to end they are the feed. *)
Theorem PostListView_pages_partition (db : DB) (now : Z) :
  let feed := PostListView_get_queryset db now in
  exists pages : list (list (nat * Post * nat)),
    length pages = Paginator_num_pages (length feed) paginate_by
    /\ concat pages = feed
    /\ forall i page_obj, pages !! i = Some page_obj ->
         PostListView_get db now (PageInt (Z.of_nat (i + 1))) =
           Ok (TemplateResponse "blog/index.html"
                 (ListContext page_obj None None)).
Proof.
  intros feed.
  pose proof (Paginator_num_pages_covers (length feed)) as [_ Hcover].
  exists ((fun i => take 10 (drop (i * 10) feed))
            <$> seq 0 (Paginator_num_pages (length feed) paginate_by)).
  split_and!.
  - by rewrite length_fmap, length_seq.
  - rewrite pages_concat. by apply take_ge.
  - intros i page_obj Hi. rewrite list_lookup_fmap in Hi.
    destruct (seq 0 _ !! i) as [j|] eqn:Hj; [|done].
    apply lookup_seq in Hj as [-> Hlt]. cbn in Hi. injection Hi as <-.
    unfold PostListView_get. fold feed.
    by rewrite paginate_queryset_in_range.
Qed.

(** X17. The bounds of the page parameter of the global feed: there is
    always a first page, served when the parameter is absent even if the
    feed is empty; a number below one or above the number of pages, and
    any text that is not a number, is answered with 404; [last] is the
    last page. *)
Theorem PostListView_page_bounds (db : DB) (now : Z) :
  let feed := PostListView_get_queryset db now in
  let n := Paginator_num_pages (length feed) paginate_by in
  1 <= n
  /\ (forall i, (i < 1 \/ Z.of_nat n < i)%Z ->
        PostListView_get db now (PageInt i) = Raise Http404)
  /\ PostListView_get db now PageOther = Raise Http404
  /\ PostListView_get db now PageAbsent =
       Ok (TemplateResponse "blog/index.html"
             (ListContext (take 10 feed) None None))
  /\ PostListView_get db now PageLast =
       PostListView_get db now (PageInt (Z.of_nat n)).
Proof.
  intros feed n. split_and!.
  - apply Paginator_num_pages_covers.
  - intros i Hi. unfold PostListView_get. fold feed.
    by rewrite paginate_queryset_out_of_range.
  - done.
  - unfold PostListView_get. fold feed.
    by rewrite paginate_queryset_default.
  - done.
Qed.

(** ** Adding a comment *)

Lemma comment_count_insert (m : gmap nat Comment) (i k : nat) (c : Comment) :
  m !! i = None ->
  size (filter (fun r : nat * Comment => comment_post r.2 = k) (<[i := c]> m)) =
    if decide (comment_post c = k)
    then S (size (filter (fun r : nat * Comment => comment_post r.2 = k) m))
    else size (filter (fun r : nat * Comment => comment_post r.2 = k) m).
Proof.
  intros Hi. case_decide as Hc.
  - rewrite map_filter_insert_True by done.
    apply map_size_insert_None, map_lookup_filter_None_2. by left.
  - rewrite map_filter_insert_False by done. by rewrite delete_id.
Qed.

Lemma comment_count_delete (m : gmap nat Comment) (i k : nat) (c : Comment) :
  m !! i = Some c ->
  size (filter (fun r : nat * Comment => comment_post r.2 = k) m) =
    if decide (comment_post c = k)
    then S (size (filter (fun r : nat * Comment => comment_post r.2 = k)
                    (delete i m)))
    else size (filter (fun r : nat * Comment => comment_post r.2 = k)
                 (delete i m)).
Proof.
  intros Hi. rewrite <- (insert_delete_id m i c Hi) at 1.
  apply comment_count_insert, lookup_delete_eq.
Qed.

(** X18. An authenticated user who submits a valid comment form for an
    existing post stores a comment tied to that post and to himself,
    whether or not the detail view would serve him the post: no
    visibility check is made.  Every other comment stays, the response
    redirects to the detail view of the post, and the comment is then on
    the detail page the author of the post is served. *)
Theorem AddCommentView_success (db : DB) (now : Z) (uid : nat)
    (kwargs : gmap string nat) (form : CommentForm) (new_id k : nat)
    (p : Post) :
  kwargs !! "post_id" = Some k ->
  Post_objects db !! k = Some p ->
  Comment_objects db !! new_id = None ->
  exists db' c,
    AddCommentView_dispatch db now (AuthUser uid) POST kwargs (Some form) new_id
      = (Ok (RedirectTo (blog_post_detail k)), db')
    /\ c = {| comment_text := form_comment_text form; comment_post := k;
              comment_author := uid; created_at := now |}
    /\ Comment_objects db' !! new_id = Some c
    /\ (forall j, j <> new_id ->
          Comment_objects db' !! j = Comment_objects db !! j)
    /\ Post_objects db' = Post_objects db
    /\ (forall later, exists comments,
          PostDetailView_get db' later (AuthUser (author p)) kwargs =
            Ok (TemplateResponse "blog/detail.html"
                  (DetailContext (k, p) comments))
          /\ (new_id, c) ∈ comments).
Proof.
  intros Hk Hp Hnew.
  exists (Comment_create new_id
            {| comment_text := form_comment_text form; comment_post := k;
               comment_author := uid; created_at := now |} db),
    {| comment_text := form_comment_text form; comment_post := k;
       comment_author := uid; created_at := now |}.
  split_and!; [|reflexivity| | |done|].
  - unfold AddCommentView_dispatch, AddCommentView_form_valid,
      AddCommentView_get_success_url.
    rewrite Hk, get_object_or_404_pk_all, Hp. done.
  - cbn. apply lookup_insert_eq.
  - intros j Hj. cbn. by apply lookup_insert_ne.
  - intros later. unfold PostDetailView_get, PostDetailView_get_context_data.
    rewrite (PostDetailView_get_object_found (Comment_create new_id _ db)
               later (AuthUser (author p)) kwargs k p Hk Hp).
    rewrite author_eq_true. cbn [bind fst]. eexists. split; [done|].
    apply elem_of_order_by, list_elem_of_filter. split; [done|].
    apply elem_of_map_to_list. cbn. apply lookup_insert_eq.
Qed.

Lemma AddCommentView_success_witness :
  PostDetailView_get Example.db Example.now (AuthUser 2) {[ "post_id" := 11 ]}
    = Raise Http404
  /\ exists db' c,
       AddCommentView_dispatch Example.db Example.now (AuthUser 2) POST
         {[ "post_id" := 11 ]} (Some {| form_comment_text := "early" |}) 2
         = (Ok (RedirectTo (blog_post_detail 11)), db')
       /\ Comment_objects db' !! 2 = Some c
       /\ comment_post c = 11 /\ comment_author c = 2.
Proof.
  split; [by vm_compute|].
  destruct (AddCommentView_success Example.db Example.now 2
              {[ "post_id" := 11 ]} {| form_comment_text := "early" |} 2 11
              (Example.post 1 true 50 (Some 1))
              ltac:(by vm_compute) ltac:(by vm_compute) ltac:(by vm_compute))
    as (db' & c & Hd & Hc & Hl & _).
  exists db', c. split_and!; [exact Hd | exact Hl | by rewrite Hc..].
Defined.

(** X19. Adding a comment raises by one the comment count the feeds show
    for the post of the URL, and leaves the count of every other post. *)
Theorem AddCommentView_increments_count (db : DB) (now : Z) (uid : nat)
    (kwargs : gmap string nat) (form : CommentForm) (new_id k : nat)
    (p : Post) :
  kwargs !! "post_id" = Some k ->
  Post_objects db !! k = Some p ->
  Comment_objects db !! new_id = None ->
  let db' := (AddCommentView_dispatch db now (AuthUser uid) POST kwargs
                (Some form) new_id).2 in
  Count_comments db' k = S (Count_comments db k)
  /\ forall j, j <> k -> Count_comments db' j = Count_comments db j.
Proof.
  intros Hk Hp Hnew db'. subst db'.
  unfold AddCommentView_dispatch, AddCommentView_form_valid.
  rewrite Hk, get_object_or_404_pk_all, Hp. cbn [snd fst].
  split.
  - rewrite !Count_comments_size. cbn [Comment_objects Comment_create].
    rewrite comment_count_insert by done. by rewrite decide_True.
  - intros j Hj. rewrite !Count_comments_size.
    cbn [Comment_objects Comment_create].
    rewrite comment_count_insert by done. by rewrite decide_False.
Qed.

Lemma AddCommentView_increments_count_witness :
  Count_comments
    (AddCommentView_dispatch Example.db Example.now (AuthUser 1) POST
       {[ "post_id" := 8 ]} (Some {| form_comment_text := "second" |}) 2).2 8
  = S (Count_comments Example.db 8).
Proof.
  apply (AddCommentView_increments_count Example.db Example.now 1
           {[ "post_id" := 8 ]} {| form_comment_text := "second" |} 2 8
           (Example.post 1 true 6 (Some 1))); by vm_compute.
Defined.

(** ** Deleting a comment *)

(** X20. When its author deletes a comment, the comment count the feeds
    show goes down by one for the post the comment belongs to, whatever
    post the URL names, and stays for every other post. *)
Theorem DeleteCommentView_decrements_count (db : DB)
    (kwargs : gmap string nat) (k : nat) (c : Comment) :
  kwargs !! "comment_id" = Some k ->
  Comment_objects db !! k = Some c ->
  let db' := (DeleteCommentView_dispatch db (AuthUser (comment_author c)) POST
                kwargs).2 in
  Count_comments db (comment_post c) = S (Count_comments db' (comment_post c))
  /\ forall j, j <> comment_post c ->
       Count_comments db' j = Count_comments db j.
Proof.
  intros Hk Hc db'. subst db'.
  unfold DeleteCommentView_dispatch, DeleteCommentView_get_object,
    SingleObjectMixin_get_object, LoginRequiredMixin_dispatch,
    DeleteView_dispatch.
  rewrite Hk, get_object_or_404_pk_all, Hc. cbn [snd].
  rewrite author_eq_true. cbn [negb is_authenticated snd fst].
  split.
  - rewrite !Count_comments_size. cbn [Comment_objects Comment_delete].
    rewrite (comment_count_delete _ k _ c Hc). by rewrite decide_True.
  - intros j Hj. rewrite !Count_comments_size.
    cbn [Comment_objects Comment_delete].
    rewrite (comment_count_delete (Comment_objects db) k j c Hc).
    by rewrite decide_False.
Qed.

Lemma DeleteCommentView_decrements_count_witness :
  Count_comments Example.db 8 =
    S (Count_comments
         (DeleteCommentView_dispatch Example.db (AuthUser 2) POST
            {[ "post_id" := 99; "comment_id" := 1 ]}).2 8).
Proof.
  apply (DeleteCommentView_decrements_count Example.db
           {[ "post_id" := 99; "comment_id" := 1 ]} 1
           {| comment_text := "first"; comment_post := 8;
              comment_author := 2; created_at := 9 |}); by vm_compute.
Defined.

(** ** Creating a post *)

Lemma ProfileView_get_queryset_found (db : DB) (kwargs : gmap string string)
    (k : nat) (u : User) :
  kwargs !! "username" = Some (username u) ->
  unique_username db ->
  User_objects db !! k = Some u ->
  ProfileView_get_queryset db kwargs =
    Ok (order_by_desc (fun r : nat * Post * nat => pub_date r.1.2)
          (annotate_comment_count db
             (filter (fun r : nat * Post => author r.2 = k)
                (objects_all (Post_objects db))))).
Proof.
  intros Hkw Huniq Hk. unfold ProfileView_get_queryset, getitem.
  rewrite Hkw. cbn [bind].
  by rewrite (get_user_by_username db (username u) k u Huniq Hk eq_refl).
Qed.

Lemma elem_of_profile_queryset (db : DB) (k j : nat) (p : Post) :
  (j, p) ∈ (order_by_desc (fun r : nat * Post * nat => pub_date r.1.2)
              (annotate_comment_count db
                 (filter (fun r : nat * Post => author r.2 = k)
                    (objects_all (Post_objects db))))).*1 <->
  Post_objects db !! j = Some p /\ author p = k.
Proof.
  rewrite order_by_desc_Permutation, annotate_comment_count_fst.
  rewrite list_elem_of_filter. unfold objects_all.
  rewrite elem_of_map_to_list. cbn. tauto.
Qed.

(** X21. The anonymous user cannot create a post: the request is
    redirected to [/login/] and stores nothing.  A stored user who
    submits a valid form creates a post whose author is that user,
    whatever the form holds, with the other fields of the form; every
    other post stays, the response redirects to the profile of the
    author, and the profile then lists the new post, published or not. *)
Theorem PostCreateView_success (db : DB) (uid new_id : nat) (u : User)
    (form : PostForm) :
  User_objects db !! uid = Some u ->
  Post_objects db !! new_id = None ->
  (forall method form',
     PostCreateView_dispatch db AnonymousUser method form' new_id =
       (Ok (RedirectToPath "/login/"), db))
  /\ exists db' p,
       PostCreateView_dispatch db (AuthUser uid) POST (Some form) new_id =
         (Ok (RedirectTo (blog_profile (username u))), db')
       /\ p = {| title := form_title form;
                 text := form_text form;
                 pub_date := form_pub_date form;
                 author := uid;
                 category := form_category form;
                 location := form_location form;
                 is_published := form_is_published form |}
       /\ Post_objects db' !! new_id = Some p
       /\ (forall j, j <> new_id -> Post_objects db' !! j = Post_objects db !! j)
       /\ (unique_username db ->
           forall kwargs : gmap string string,
             kwargs !! "username" = Some (username u) ->
             exists feed,
               ProfileView_get_queryset db' kwargs = Ok feed
               /\ (new_id, p) ∈ feed.*1).
Proof.
  intros Hu Hnew. split; [done|].
  eexists (Post_create new_id _ db), _. split_and!; [|reflexivity| | |].
  - unfold PostCreateView_dispatch, PostCreateView_form_valid,
      PostCreateView_get_success_url.
    cbn [fst snd author User_objects Post_create]. by rewrite Hu.
  - cbn. apply lookup_insert_eq.
  - intros j Hj. cbn. by apply lookup_insert_ne.
  - intros Huniq kwargs Hkw. eexists. split.
    + by apply (ProfileView_get_queryset_found (Post_create new_id _ db)
                  kwargs uid u).
    + apply elem_of_profile_queryset. split; [|done].
      cbn. apply lookup_insert_eq.
Qed.

Lemma PostCreateView_success_witness :
  let form := {| form_title := "draft"; form_text := "body";
                 form_pub_date := 99; form_category := None;
                 form_location := None; form_is_published := false |} in
  PostCreateView_dispatch Example.db AnonymousUser POST (Some form) 13 =
    (Ok (RedirectToPath "/login/"), Example.db)
  /\ exists db' p,
       PostCreateView_dispatch Example.db (AuthUser 2) POST (Some form) 13 =
         (Ok (RedirectTo (blog_profile "bob")), db')
       /\ Post_objects db' !! 13 = Some p
       /\ author p = 2
       /\ exists feed,
            ProfileView_get_queryset db' {[ "username" := "bob" ]} = Ok feed
            /\ (13, p) ∈ feed.*1.
Proof.
  intros form.
  destruct (PostCreateView_success Example.db 2 13 {| username := "bob" |} form
              ltac:(by vm_compute) ltac:(by vm_compute))
    as (Hanon & db' & p & Hd & Hp & Hl & _ & Hprofile).
  split; [apply Hanon|].
  exists db', p. split_and!; [exact Hd | exact Hl | by rewrite Hp |].
  apply (Hprofile unique_username_example). by vm_compute.
Defined.

(** ** Editing one's profile *)

(** X22. The profile view edits the requesting user and nobody else:
    a valid form replaces the row of the requester, leaves every other
    user, every post and every comment, and redirects to the profile
    under the new name, which lists the posts the user wrote before.
    The anonymous user is redirected to the login page. *)
Theorem EditProfileView_success (db : DB) (uid : nat) (u : User)
    (form : UserProfileForm) :
  User_objects db !! uid = Some u ->
  (forall method form',
     EditProfileView_dispatch db AnonymousUser method form' =
       (Ok (HttpResponseRedirect login_url), db))
  /\ exists db',
       EditProfileView_dispatch db (AuthUser uid) POST (Some form) =
         (Ok (HttpResponseRedirect (blog_profile (form_username form))), db')
       /\ User_objects db' !! uid = Some {| username := form_username form |}
       /\ (forall j, j <> uid -> User_objects db' !! j = User_objects db !! j)
       /\ Post_objects db' = Post_objects db
       /\ Comment_objects db' = Comment_objects db
       /\ (unique_username db' ->
           forall kwargs : gmap string string,
             kwargs !! "username" = Some (form_username form) ->
             exists feed,
               ProfileView_get_queryset db' kwargs = Ok feed
               /\ forall j p, (j, p) ∈ feed.*1 <->
                    Post_objects db !! j = Some p /\ author p = uid).
Proof.
  intros Hu. split; [done|].
  exists (UserProfileForm_save form (uid, u) db).
  assert (Hrow : User_objects (UserProfileForm_save form (uid, u) db) !! uid =
                 Some {| username := form_username form |}).
  { cbn. apply lookup_insert_eq. }
  split_and!; [| exact Hrow | | done | done |].
  - unfold EditProfileView_dispatch, EditProfileView_get_object.
    by rewrite Hu.
  - intros j Hj. cbn. by apply lookup_insert_ne.
  - intros Huniq kwargs Hkw. eexists. split.
    + by apply (ProfileView_get_queryset_found _ kwargs uid
                  {| username := form_username form |}).
    + intros j p.
      exact (elem_of_profile_queryset (UserProfileForm_save form (uid, u) db)
               uid j p).
Qed.

Lemma EditProfileView_success_witness :
  exists db',
    EditProfileView_dispatch Example.db (AuthUser 1) POST
      (Some {| form_username := "anna" |}) =
      (Ok (HttpResponseRedirect (blog_profile "anna")), db')
    /\ User_objects db' !! 1 = Some {| username := "anna" |}
    /\ User_objects db' !! 2 = Some {| username := "bob" |}.
Proof.
  destruct (EditProfileView_success Example.db 1 {| username := "ann" |}
              {| form_username := "anna" |} ltac:(by vm_compute))
    as (_ & db' & Hd & Hrow & Hother & _).
  exists db'. split_and!; [exact Hd | exact Hrow |].
  rewrite Hother by discriminate. by vm_compute.
Defined.

(** ** The profile page and the visibility of posts *)

(** X23. The profile page applies no visibility rule: an unpublished post
    is listed on the profile of its author, for whoever asks for the
    page, while the detail view answers 404 for that post to everyone but
    the author. *)
Theorem ProfileView_lists_hidden_posts (db : DB) (now : Z)
    (user : RequestUser) (kwargs : gmap string string)
    (kw : gmap string nat) (k j : nat) (u : User) (p : Post) :
  kwargs !! "username" = Some (username u) ->
  unique_username db ->
  User_objects db !! k = Some u ->
  kw !! "post_id" = Some j ->
  Post_objects db !! j = Some p ->
  author p = k ->
  is_published p = false ->
  user <> AuthUser k ->
  (exists feed,
     ProfileView_get_queryset db kwargs = Ok feed /\ (j, p) ∈ feed.*1)
  /\ PostDetailView_get db now user kw = Raise Http404.
Proof.
  intros Hkw Huniq Hk Hj Hp Ha Hpub Hu. split.
  - eexists. split; [by apply (ProfileView_get_queryset_found db kwargs k u)|].
    by apply elem_of_profile_queryset.
  - unfold PostDetailView_get.
    rewrite (PostDetailView_get_object_found _ _ _ _ j p Hj Hp).
    rewrite author_eq_false by congruence. by rewrite Hpub.
Qed.

Lemma ProfileView_lists_hidden_posts_witness :
  (exists feed,
     ProfileView_get_queryset Example.db {[ "username" := "bob" ]} = Ok feed
     /\ (10, Example.post 2 false 3 (Some 1)) ∈ feed.*1)
  /\ PostDetailView_get Example.db Example.now AnonymousUser
       {[ "post_id" := 10 ]} = Raise Http404.
Proof.
  apply (ProfileView_lists_hidden_posts Example.db Example.now AnonymousUser
           {[ "username" := "bob" ]} {[ "post_id" := 10 ]} 2 10
           {| username := "bob" |} (Example.post 2 false 3 (Some 1)));
    [by vm_compute | exact unique_username_example | by vm_compute
    | by vm_compute | by vm_compute | done | done | discriminate].
Defined.

(** X24. The profile page of a name no user has is answered with 404,
    whatever the page asked for. *)
Theorem ProfileView_unknown_user_404 (db : DB) (kwargs : gmap string string)
    (name : string) (page : PageParam) :
  kwargs !! "username" = Some name ->
  (forall k u, User_objects db !! k = Some u -> username u <> name) ->
  ProfileView_get db kwargs page = Raise Http404.
Proof.
  intros Hkw Hnone. unfold ProfileView_get, ProfileView_get_queryset, getitem.
  rewrite Hkw. cbn [bind].
  rewrite get_object_or_404_none; [done|].
  intros k u Hk. cbn. apply bool_decide_eq_false_2. by apply (Hnone k).
Qed.

Lemma ProfileView_unknown_user_404_witness :
  ProfileView_get Example.db {[ "username" := "carol" ]} PageAbsent =
    Raise Http404.
Proof.
  apply (ProfileView_unknown_user_404 Example.db {[ "username" := "carol" ]}
           "carol" PageAbsent); [by vm_compute|].
  intros k u Hk.
  destruct (decide (k = 1)) as [->|H1].
  - vm_compute in Hk. by injection Hk as <-.
  - destruct (decide (k = 2)) as [->|H2].
    + vm_compute in Hk. by injection Hk as <-.
    + unfold Example.db in Hk. cbn [User_objects] in Hk.
      rewrite lookup_insert_ne, lookup_singleton_ne in Hk by done.
      discriminate Hk.
Defined.
